(** * Latest-run locator of the NBM station CSV viewer (app.py)

    A shallow embedding of the helpers of [app.py] -- [build_url],
    [url_exists], [find_latest_csv], [download_csv_bytes] and the button
    handler of the page -- together with the properties of the URL-probing
    search that the specification of the application states.

    The network, the host clock and the three [st.cache_data] stores are
    explicit: every helper takes a [World] and returns the next one. *)

From Stdlib Require Import ZArith List String Ascii Lia Bool DecimalString.
From stdpp Require Import gmap strings.
Import ListNotations.

Local Open Scope string_scope.
Local Open Scope list_scope.
Local Open Scope Z_scope.

(* ===================================================================== *)
(** * Configuration (app.py, lines 12-19)                                 *)
(* ===================================================================== *)

Definition STATIONS : list string :=
  ["KXMR"; "KTTS"; "X1K"; "KCOF"; "KMLB"; "KTIX"].

Definition NBM_VERSIONS_TO_TRY : list string := ["NBM4.2"; "NBM4.1"; "NBM4.0"].

(** search today UTC + previous 2 days *)
Definition DAYS_BACK : nat := 3.

(** seconds *)
Definition TIMEOUT : Z := 20.

(** [range(start, start - n, -1)]: [n] integers counting down from [start]. *)
Fixpoint range_down (start : Z) (n : nat) : list Z :=
  match n with
  | O => []
  | S k => start :: range_down (start - 1) k
  end.

(** [list(range(23, -1, -1))] *)
Definition HOURS_DESC : list Z := range_down 23 24.

(** [range(DAYS_BACK)] *)
Definition day_offsets : list nat := seq 0 DAYS_BACK.

Definition BASE : string := "https://apps.gsl.noaa.gov/nbmviewer/data/archive".

(** The [ttl=300] argument of the three [@st.cache_data] decorators. *)
Definition CACHE_TTL : nat := 300.

(* ===================================================================== *)
(** * Calendar dates ([datetime.date] and [timedelta(days=k)])            *)
(* ===================================================================== *)

Record date := mkdate { year : Z; month : Z; day : Z }.

Definition MINYEAR : Z := 1.
Definition MAXYEAR : Z := 9999.

Definition is_leap (y : Z) : bool :=
  (y mod 4 =? 0) && (negb (y mod 100 =? 0) || (y mod 400 =? 0)).

Definition days_in_month (y m : Z) : Z :=
  if m =? 2 then (if is_leap y then 29 else 28)
  else if (m =? 4) || (m =? 6) || (m =? 9) || (m =? 11) then 30
  else 31.

(** The values a [datetime.date] object can hold. *)
Definition valid_date (d : date) : Prop :=
  MINYEAR <= year d <= MAXYEAR /\
  1 <= month d <= 12 /\
  1 <= day d <= days_in_month (year d) (month d).

(** [d - timedelta(days=1)]; [None] stands for the [OverflowError] that
    Python raises below 0001-01-01. *)
Definition prev_day (d : date) : option date :=
  if 1 <? day d then Some (mkdate (year d) (month d) (day d - 1))
  else if 1 <? month d then
    Some (mkdate (year d) (month d - 1) (days_in_month (year d) (month d - 1)))
  else if MINYEAR <? year d then Some (mkdate (year d - 1) 12 31)
  else None.

(** [d - timedelta(days=k)] *)
Fixpoint date_sub (d : date) (k : nat) : option date :=
  match k with
  | O => Some d
  | S k' =>
      match prev_day d with
      | Some p => date_sub p k'
      | None => None
      end
  end.

(* ===================================================================== *)
(** * Integer formatting ([f"{n:0Wd}"]) and [build_url]                   *)
(* ===================================================================== *)

(** [str(n)] for [0 <= n]. *)
Definition str_nonneg (n : Z) : string :=
  NilZero.string_of_uint (N.to_uint (Z.to_N n)).

Fixpoint zeros (n : nat) : string :=
  match n with
  | O => ""
  | S k => String "0" (zeros k)
  end.

(** [s.zfill(width)] on a string of digits: the width is a minimum. *)
Definition zfill (width : nat) (s : string) : string :=
  zeros (width - String.length s) +:+ s.

(** [format(n, "0Wd")]: sign first, then zeros up to the width. *)
Definition format_0d (width : nat) (n : Z) : string :=
  if n <? 0 then String "-" (zfill (width - 1) (str_nonneg (- n)))
  else zfill width (str_nonneg n).

(** app.py, lines 25-26. *)
Definition build_url (y m d hh : Z) (nbm_version station : string) : string :=
  BASE +:+ "/" +:+ format_0d 4 y +:+ "/" +:+ format_0d 2 m +:+ "/" +:+ format_0d 2 d
       +:+ "/" +:+ nbm_version +:+ "/" +:+ format_0d 2 hh +:+ "/" +:+ station +:+ ".csv".

(** The character of a decimal digit, and fixed-width numerals. *)
Definition digit (n : Z) : ascii := ascii_of_nat (48 + Z.to_nat n).

Definition digits2 (n : Z) : string :=
  String (digit (n / 10)) (String (digit (n mod 10)) "").

Definition digits4 (n : Z) : string :=
  String (digit (n / 1000)) (String (digit (n / 100 mod 10)) (digits2 (n mod 100))).

Definition is_digit (c : ascii) : bool :=
  (48 <=? nat_of_ascii c)%nat && (nat_of_ascii c <=? 57)%nat.

Fixpoint all_digits (s : string) : bool :=
  match s with
  | EmptyString => true
  | String c s' => is_digit c && all_digits s'
  end.

(* ===================================================================== *)
(** * The network, the clock and the caches                               *)
(* ===================================================================== *)

Definition bytes := list Byte.byte.

Inductive method := HEAD | GET.

(** The arguments the script gives to [requests.head] / [requests.get]. *)
Record request := mkrequest {
  req_method : method;
  req_url : string;
  req_timeout : Z;
  req_stream : bool;
  req_allow_redirects : bool
}.

Record response := mkresponse { status_code : Z; content : bytes }.

(** What a call of [requests] gives: a response, or an exception of the
    transport (connection error, timeout, too many redirects, ...). *)
Inductive reply :=
| Responded (r : response)
| Failed.

Inductive exn :=
| OverflowError
| HTTPError (status : Z)
| RequestException
| ParserError.

Inductive result (A : Type) :=
| Ok (a : A)
| Raise (e : exn).
Arguments Ok {A} a.
Arguments Raise {A} e.

(** The dict that [find_latest_csv] returns. *)
Record SearchResult := mkresult {
  res_url : string;
  res_year : Z;
  res_month : Z;
  res_day : Z;
  res_hour : Z;
  res_version : string
}.

(** One [st.cache_data] store: the value and the time it was stored, by
    the hashed argument (here the string argument itself). *)
Abbreviation cache V := (gmap string (V * nat)).

Record World := mkworld {
  now : nat;                                   (* the clock, in seconds *)
  exists_cache : cache bool;                   (* store of [url_exists] *)
  find_cache : cache (option SearchResult);    (* store of [find_latest_csv] *)
  bytes_cache : cache bytes;                   (* store of [download_csv_bytes] *)
  sent : list request;                         (* every request issued so far *)
  probed : list (string * bool)                (* every [url_exists] call and its answer *)
}.

Definition set_exists_cache (c : cache bool) (w : World) : World :=
  mkworld (now w) c (find_cache w) (bytes_cache w) (sent w) (probed w).

Definition set_find_cache (c : cache (option SearchResult)) (w : World) : World :=
  mkworld (now w) (exists_cache w) c (bytes_cache w) (sent w) (probed w).

Definition set_bytes_cache (c : cache bytes) (w : World) : World :=
  mkworld (now w) (exists_cache w) (find_cache w) c (sent w) (probed w).

Definition log_probe (url : string) (b : bool) (w : World) : World :=
  mkworld (now w) (exists_cache w) (find_cache w) (bytes_cache w) (sent w)
          (probed w ++ [(url, b)]).

(** Time passing between two user actions. *)
Definition elapse (dt : nat) (w : World) : World :=
  mkworld (now w + dt)%nat (exists_cache w) (find_cache w) (bytes_cache w)
          (sent w) (probed w).

(** A fresh process: clock at [t], nothing cached, nothing sent. *)
Definition cold (t : nat) : World := mkworld t ∅ ∅ ∅ [] [].

(** An entry answers while it is younger than the time-to-live. *)
Definition cache_lookup {V : Type} (c : cache V) (key : string) (t : nat) : option V :=
  match c !! key with
  | Some (v, stored) => if (t <? stored + CACHE_TTL)%nat then Some v else None
  | None => None
  end.

Definition head_request (url : string) : request :=
  mkrequest HEAD url TIMEOUT false true.

Definition get_stream_request (url : string) : request :=
  mkrequest GET url TIMEOUT true true.

Definition get_request (url : string) : request :=
  mkrequest GET url TIMEOUT false true.

(** [Response.raise_for_status] raises for 4xx and 5xx codes only. *)
Definition is_http_error (status : Z) : bool := (400 <=? status) && (status <? 600).

(** [f"{station}_{year:04d}{month:02d}{day:02d}{hour:02d}_{version}.csv"]
    (app.py, line 121). *)
Definition filename (station : string) (found : SearchResult) : string :=
  station +:+ "_" +:+ format_0d 4 (res_year found) +:+ format_0d 2 (res_month found)
          +:+ format_0d 2 (res_day found) +:+ format_0d 2 (res_hour found)
          +:+ "_" +:+ res_version found +:+ ".csv".

(** app.py, lines 106-109. *)
Definition success_message (found : SearchResult) : string :=
  "Found latest: " +:+ format_0d 4 (res_year found) +:+ "-"
    +:+ format_0d 2 (res_month found) +:+ "-" +:+ format_0d 2 (res_day found) +:+ " "
    +:+ format_0d 2 (res_hour found) +:+ "Z (" +:+ res_version found +:+ ")".

(** app.py, line 103. *)
Definition not_found_message (station : string) : string :=
  "No CSV found for " +:+ station +:+ " in the last "
    +:+ str_nonneg (Z.of_nat DAYS_BACK) +:+ " day(s). Try increasing DAYS_BACK.".

(** What the page shows after the button is pressed. *)
Inductive page :=
| NotFound (error_message : string)            (* [st.error] then [st.stop] *)
| Uncaught (e : exn)                           (* an exception left the script *)
| Offered (message : string) (source_url : string) (shape : nat * nat)
          (data : bytes) (file_name : string). (* preview and download button *)

Section Locator.

(** The remote side: the reply to a request sent at time [t], and the
    seconds the call takes. *)
Variable server : nat -> request -> reply * nat.

(** [datetime.utcnow().date()] when the clock shows [t]. *)
Variable utc_today : nat -> date.

(** [pd.read_csv(io.BytesIO(b))]: rows and columns, or a parse error. *)
Variable read_csv : bytes -> result (nat * nat).

Definition send (req : request) (w : World) : reply * World :=
  let '(rep, dt) := server (now w) req in
  (rep, mkworld (now w + dt)%nat (exists_cache w) (find_cache w) (bytes_cache w)
                (sent w ++ [req]) (probed w)).

(** The [except Exception] branch of [url_exists] (app.py, lines 43-47). *)
Definition url_exists_fallback (url : string) (w : World) : bool * World :=
  let '(rg, w1) := send (get_stream_request url) w in
  match rg with
  | Responded r => (status_code r =? 200, w1)
  | Failed => (false, w1)
  end.

(** The body of [url_exists] (app.py, lines 35-47). *)
Definition url_exists_body (url : string) (w : World) : bool * World :=
  let '(rh, w1) := send (head_request url) w in
  match rh with
  | Responded r =>
      if status_code r =? 200 then (true, w1)
      else if (status_code r =? 403) || (status_code r =? 405)
           then url_exists_fallback url w1     (* raise RuntimeError("HEAD blocked") *)
           else (false, w1)
  | Failed => url_exists_fallback url w1
  end.

(** [@st.cache_data(ttl=300) def url_exists] *)
Definition url_exists (url : string) (w : World) : bool * World :=
  match cache_lookup (exists_cache w) url (now w) with
  | Some b => (b, log_probe url b w)
  | None =>
      let '(b, w1) := url_exists_body url w in
      (b, log_probe url b
            (set_exists_cache (<[url := (b, now w1)]> (exists_cache w1)) w1))
  end.

(** [for ver in NBM_VERSIONS_TO_TRY] (app.py, lines 66-69). *)
Fixpoint scan_versions (y m d hh : Z) (station : string) (vers : list string)
         (w : World) : option SearchResult * World :=
  match vers with
  | [] => (None, w)
  | ver :: rest =>
      let url := build_url y m d hh ver station in
      let '(b, w1) := url_exists url w in
      if b then (Some (mkresult url y m d hh ver), w1)
      else scan_versions y m d hh station rest w1
  end.

(** [for hh in HOURS_DESC] (app.py, lines 65-69). *)
Fixpoint scan_hours (y m d : Z) (station : string) (hours : list Z)
         (w : World) : option SearchResult * World :=
  match hours with
  | [] => (None, w)
  | hh :: rest =>
      match scan_versions y m d hh station NBM_VERSIONS_TO_TRY w with
      | (Some found, w1) => (Some found, w1)
      | (None, w1) => scan_hours y m d station rest w1
      end
  end.

(** [for day_offset in range(DAYS_BACK)] (app.py, lines 61-71). *)
Fixpoint scan_days (today_utc : date) (station : string) (offsets : list nat)
         (w : World) : result (option SearchResult) * World :=
  match offsets with
  | [] => (Ok None, w)
  | day_offset :: rest =>
      match date_sub today_utc day_offset with
      | None => (Raise OverflowError, w)
      | Some dy =>
          match scan_hours (year dy) (month dy) (day dy) station HOURS_DESC w with
          | (Some found, w1) => (Ok (Some found), w1)
          | (None, w1) => scan_days today_utc station rest w1
          end
      end
  end.

(** The body of [find_latest_csv] (app.py, lines 59-71). *)
Definition find_latest_csv_body (station : string) (w : World)
  : result (option SearchResult) * World :=
  let today_utc := utc_today (now w) in
  scan_days today_utc station day_offsets w.

(** [@st.cache_data(ttl=300) def find_latest_csv]: a raised exception is
    not stored. *)
Definition find_latest_csv (station : string) (w : World)
  : result (option SearchResult) * World :=
  match cache_lookup (find_cache w) station (now w) with
  | Some found => (Ok found, w)
  | None =>
      match find_latest_csv_body station w with
      | (Ok found, w1) =>
          (Ok found, set_find_cache (<[station := (found, now w1)]> (find_cache w1)) w1)
      | (Raise e, w1) => (Raise e, w1)
      end
  end.

(** The body of [download_csv_bytes] (app.py, lines 76-78). *)
Definition download_csv_bytes_body (url : string) (w : World) : result bytes * World :=
  let '(rg, w1) := send (get_request url) w in
  match rg with
  | Responded r =>
      if is_http_error (status_code r) then (Raise (HTTPError (status_code r)), w1)
      else (Ok (content r), w1)
  | Failed => (Raise RequestException, w1)
  end.

(** [@st.cache_data(ttl=300) def download_csv_bytes] *)
Definition download_csv_bytes (url : string) (w : World) : result bytes * World :=
  match cache_lookup (bytes_cache w) url (now w) with
  | Some b => (Ok b, w)
  | None =>
      match download_csv_bytes_body url w with
      | (Ok b, w1) => (Ok b, set_bytes_cache (<[url := (b, now w1)]> (bytes_cache w1)) w1)
      | (Raise e, w1) => (Raise e, w1)
      end
  end.

(** [if st.button("Get most recent CSV")] (app.py, lines 98-127). *)
Definition on_button (station : string) (w : World) : page * World :=
  match find_latest_csv station w with
  | (Raise e, w1) => (Uncaught e, w1)
  | (Ok None, w1) => (NotFound (not_found_message station), w1)
  | (Ok (Some found), w1) =>
      match download_csv_bytes (res_url found) w1 with
      | (Raise e, w2) => (Uncaught e, w2)
      | (Ok csv_bytes, w2) =>
          match read_csv csv_bytes with
          | Raise e => (Uncaught e, w2)
          | Ok shape =>
              (Offered (success_message found) (res_url found) shape csv_bytes
                       (filename station found), w2)
          end
      end
  end.

End Locator.

(* ===================================================================== *)
(** * The search space and its priority order                             *)
(* ===================================================================== *)

(** A search key: the station is fixed during one search. *)
Record SearchKey := mkkey { k_date : date; k_hour : Z; k_version : string }.

Definition key_url (station : string) (k : SearchKey) : string :=
  build_url (year (k_date k)) (month (k_date k)) (day (k_date k))
            (k_hour k) (k_version k) station.

Definition key_result (station : string) (k : SearchKey) : SearchResult :=
  mkresult (key_url station k) (year (k_date k)) (month (k_date k)) (day (k_date k))
           (k_hour k) (k_version k).

(** The keys of one day: highest hour first, versions in list order. *)
Definition keys_of_day (dy : date) : list SearchKey :=
  flat_map (fun hh => map (fun ver => mkkey dy hh ver) NBM_VERSIONS_TO_TRY) HOURS_DESC.

(** The keys of a list of days, first day first. *)
Definition search_space (days : list date) : list SearchKey :=
  flat_map keys_of_day days.

(** The days of the lookback window, newest first, when none of them
    falls before 0001-01-01. *)
Fixpoint dates_back (today_utc : date) (offsets : list nat) : option (list date) :=
  match offsets with
  | [] => Some []
  | day_offset :: rest =>
      match date_sub today_utc day_offset, dates_back today_utc rest with
      | Some dy, Some dys => Some (dy :: dys)
      | _, _ => None
      end
  end.

Definition search_dates (today_utc : date) : option (list date) :=
  dates_back today_utc day_offsets.

(** The key at rank [i] of the priority order: 72 keys per day, 3 per hour. *)
Definition key_at (days : list date) (i : nat) : SearchKey :=
  mkkey (nth (i / 72) days (mkdate 0 0 0))
        (23 - Z.of_nat ((i / 3) mod 24))
        (nth (i mod 3) NBM_VERSIONS_TO_TRY "").

(** The log entries of a probe that failed / succeeded. *)
Definition miss (station : string) (k : SearchKey) : string * bool :=
  (key_url station k, false).

Definition hit (station : string) (k : SearchKey) : string * bool :=
  (key_url station k, true).

(** What a scan over [keys] leaves in the probe log, and what it returns:
    either every key missed, or the keys before the first hit missed, the
    hit was probed last and its key is the result. *)
Definition scan_outcome (station : string) (keys : list SearchKey)
           (trace : list (string * bool)) (r : option SearchResult) : Prop :=
  match r with
  | None => trace = map (miss station) keys
  | Some found =>
      exists pre k post,
        keys = pre ++ k :: post /\
        found = key_result station k /\
        trace = map (miss station) pre ++ [hit station k]
  end.

(** A key whose numbers fit the widths of the URL template. *)
Definition key_in_range (k : SearchKey) : Prop :=
  0 <= year (k_date k) <= 9999 /\ 0 <= month (k_date k) <= 99 /\
  0 <= day (k_date k) <= 99 /\ 0 <= k_hour k <= 99.

(** Status codes of the success class (2xx). *)
Definition is_success (status : Z) : bool := (200 <=? status) && (status <? 300).

(** What the existence check leaves as it is: the result store and the
    download store; and the clock does not go back. *)
Definition same_stores (w w' : World) : Prop :=
  find_cache w' = find_cache w /\ bytes_cache w' = bytes_cache w /\
  (now w <= now w')%nat.

(** The URL of a result is the URL of its own metadata. *)
Definition url_matches (station : string) (found : SearchResult) : Prop :=
  res_url found =
    build_url (res_year found) (res_month found) (res_day found)
              (res_hour found) (res_version found) station.

(** No entry of the result store contradicts [build_url]. *)
Definition find_cache_consistent (w : World) : Prop :=
  forall station found stored,
    find_cache w !! station = Some (Some found, stored) ->
    url_matches station found.

(** The file name with every number written out at its fixed width. *)
Definition filename_digits (station : string) (found : SearchResult) : string :=
  station +:+ "_" +:+ digits4 (res_year found) +:+ digits2 (res_month found)
          +:+ digits2 (res_day found) +:+ digits2 (res_hour found)
          +:+ "_" +:+ res_version found +:+ ".csv".

(** A URL that follows the template with a year of exactly four digits
    and a month, day and hour of exactly two. *)
Definition fits_template (ver station url : string) : Prop :=
  exists fy fm fd fh : string,
    String.length fy = 4%nat /\ String.length fm = 2%nat /\
    String.length fd = 2%nat /\ String.length fh = 2%nat /\
    all_digits fy = true /\ all_digits fm = true /\
    all_digits fd = true /\ all_digits fh = true /\
    url = BASE +:+ "/" +:+ fy +:+ "/" +:+ fm +:+ "/" +:+ fd
               +:+ "/" +:+ ver +:+ "/" +:+ fh +:+ "/" +:+ station +:+ ".csv".

(** Names in strictly descending order: the newest-named version first. *)
Fixpoint newest_first (names : list string) : bool :=
  match names with
  | a :: (b :: _) as rest =>
      match String.compare a b with Gt => newest_first rest | _ => false end
  | _ => true
  end.

(* ===================================================================== *)
(** * Concrete scenarios                                                  *)
(* ===================================================================== *)

Module Scenario.

(** Today is 2024-03-01, so yesterday is the leap day. *)
Definition today : date := mkdate 2024 3 1.
Definition clock (t : nat) : date := today.

Definition target : string := build_url 2024 2 29 12 "NBM4.1" "KXMR".

(** Every request takes one second. *)
Definition always (status : Z) (t : nat) (r : request) : reply * nat :=
  (Responded (mkresponse status []), 1%nat).

(** Nothing is published: 404 everywhere. *)
Definition nothing : nat -> request -> reply * nat := always 404.

(** The network is down: every call raises after the timeout. *)
Definition down (t : nat) (r : request) : reply * nat := (Failed, 20%nat).

(** [HEAD] answers [head_status] and [GET] answers [get_status]. *)
Definition verbs (head_status get_status : Z) (t : nat) (r : request)
  : reply * nat :=
  match req_method r with
  | HEAD => (Responded (mkresponse head_status []), 1%nat)
  | GET => (Responded (mkresponse get_status [Byte.x61]), 1%nat)
  end.

(** Only yesterday's 12Z run of NBM4.1 is published for KXMR, and the
    server rejects [HEAD] on it. *)
Definition only_target (t : nat) (r : request) : reply * nat :=
  if String.eqb (req_url r) target then verbs 405 200 t r else nothing t r.

Definition parse (b : bytes) : result (nat * nat) := Ok (0%nat, length b).

End Scenario.

(* ===================================================================== *)
(** * Requests and answers of a search                                    *)
(* ===================================================================== *)

(** A request that the existence check of a logged probe may send. *)
Definition probe_of (trace : list (string * bool)) (r : request) : Prop :=
  exists u b, In (u, b) trace /\ (r = head_request u \/ r = get_stream_request u).

(** At time [t] the server answers 200 to the [HEAD] or to the streaming
    [GET] of [url]. *)
Definition answered_200 (server : nat -> request -> reply * nat)
           (url : string) (t : nat) : Prop :=
  exists r dt,
    (server t (head_request url) = (Responded r, dt) \/
     server t (get_stream_request url) = (Responded r, dt)) /\
    status_code r = 200.

(** Every positive answer of the existence store was stored in the past,
    after the server had answered 200. *)
Definition store_justified (server : nat -> request -> reply * nat)
           (w : World) : Prop :=
  forall u stored,
    exists_cache w !! u = Some (true, stored) ->
    (stored <= now w)%nat /\ exists t, (t <= stored)%nat /\ answered_200 server u t.

(** What [n] existence checks at most leave behind: at most [n] logged
    probes, at most two requests per probe, each one the [HEAD] or the
    streaming [GET] of a logged probe; the result store and the download
    store as they were. *)
Definition checks_cost (n : nat) (w w' : World) : Prop :=
  exists trace reqs,
    probed w' = probed w ++ trace /\
    sent w' = sent w ++ reqs /\
    (length trace <= n)%nat /\
    (length reqs <= 2 * length trace)%nat /\
    Forall (probe_of trace) reqs /\
    find_cache w' = find_cache w /\ bytes_cache w' = bytes_cache w.

(** The time that requests of at most [limit] seconds each may take. *)
Definition checks_time (limit : nat) (n : nat) (w w' : World) : Prop :=
  (now w <= now w')%nat /\
  (length (sent w) <= length (sent w'))%nat /\
  (now w' + limit * length (sent w) <= now w + limit * length (sent w'))%nat.

(** What existence checks keep: a justified store stays justified, and
    every positive answer they log is justified by then. *)
Definition checks_sound (server : nat -> request -> reply * nat)
           (n : nat) (w w' : World) : Prop :=
  store_justified server w ->
  store_justified server w' /\
  (now w <= now w')%nat /\
  exists trace,
    probed w' = probed w ++ trace /\
    forall u, In (u, true) trace ->
      exists t, (t <= now w')%nat /\ answered_200 server u t.

(** What existence checks ask: the store gains entries only for the URLs
    they probe, and a URL probed once, for which the store held nothing
    before, had its [HEAD] sent. *)
Definition checks_ask (n : nat) (w w' : World) : Prop :=
  exists trace reqs,
    probed w' = probed w ++ trace /\
    sent w' = sent w ++ reqs /\
    (forall u, exists_cache w' !! u <> None ->
       exists_cache w !! u <> None \/ In u (map fst trace)) /\
    (List.NoDup (map fst trace) ->
     (forall u, In u (map fst trace) -> exists_cache w !! u = None) ->
     forall u, In u (map fst trace) -> In (head_request u) reqs).

(** No answer of the existence store is dated in the future. *)
Definition store_in_past (w : World) : Prop :=
  forall u b stored, exists_cache w !! u = Some (b, stored) -> (stored <= now w)%nat.

(** Existence checks keep the store dated in the past, and the clock
    does not go back. *)
Definition checks_past (n : nat) (w w' : World) : Prop :=
  store_in_past w -> store_in_past w' /\ (now w <= now w')%nat.

(** The first URL a search probes: today at 23Z, first listed version. *)
Definition first_url (today_utc : date) (station : string) : string :=
  build_url (year today_utc) (month today_utc) (day today_utc) 23 "NBM4.2" station.

(* ===================================================================== *)
(** * Fixed-width numerals                                                *)
(* ===================================================================== *)

Ltac divlia := Z.div_mod_to_equations; lia.

(** A property checked on the [n] integers from [z] on. *)
Fixpoint all_from (P : Z -> bool) (z : Z) (n : nat) : bool :=
  match n with
  | O => true
  | S k => P z && all_from P (z + 1) k
  end.

Lemma all_from_correct (P : Z -> bool) (n : nat) :
  forall z, all_from P z n = true ->
  forall x, z <= x < z + Z.of_nat n -> P x = true.
Proof.
  induction n as [|k IH]; intros z Hall x Hx; [lia|].
  cbn [all_from] in Hall. apply andb_prop in Hall as [Hz Hrest].
  destruct (Z.eq_dec x z) as [->|Hne]; [assumption|].
  apply (IH (z + 1) Hrest). lia.
Qed.

Lemma Z_below_by_enumeration (P : Z -> bool) (bound : Z) :
  all_from P 0 (Z.to_nat bound) = true ->
  forall z, 0 <= z < bound -> P z = true.
Proof.
  intros Hall z Hz.
  apply (all_from_correct P (Z.to_nat bound) 0 Hall). lia.
Qed.

Lemma format_0d_2 n : 0 <= n <= 99 -> format_0d 2 n = digits2 n.
Proof.
  intros Hn.
  apply String.eqb_eq.
  apply (Z_below_by_enumeration
           (fun z => String.eqb (format_0d 2 z) (digits2 z)) 100); [|lia].
  vm_compute. reflexivity.
Qed.

Lemma format_0d_4 n : 0 <= n <= 9999 -> format_0d 4 n = digits4 n.
Proof.
  intros Hn.
  apply String.eqb_eq.
  apply (Z_below_by_enumeration
           (fun z => String.eqb (format_0d 4 z) (digits4 z)) 10000); [|lia].
  vm_compute. reflexivity.
Qed.

Lemma digit_is_digit n : 0 <= n <= 9 -> is_digit (digit n) = true.
Proof.
  intros Hn.
  apply (Z_below_by_enumeration (fun z => is_digit (digit z)) 10); [|lia].
  reflexivity.
Qed.

Lemma digit_inj a b : 0 <= a <= 9 -> 0 <= b <= 9 -> digit a = digit b -> a = b.
Proof.
  intros Ha Hb Heq.
  assert (Hval : forall z, 0 <= z <= 9 -> Z.of_nat (nat_of_ascii (digit z)) = 48 + z).
  { intros z Hz.
    apply Z.eqb_eq.
    apply (Z_below_by_enumeration
             (fun z => Z.of_nat (nat_of_ascii (digit z)) =? 48 + z) 10); [|lia].
    reflexivity. }
  pose proof (Hval a Ha) as Ea. pose proof (Hval b Hb) as Eb.
  rewrite Heq in Ea. lia.
Qed.

Lemma digits2_all_digits n : 0 <= n <= 99 -> all_digits (digits2 n) = true.
Proof.
  intros Hn. unfold digits2. cbn [all_digits].
  rewrite !digit_is_digit by divlia. reflexivity.
Qed.

Lemma digits4_all_digits n : 0 <= n <= 9999 -> all_digits (digits4 n) = true.
Proof.
  intros Hn. unfold digits4. cbn [all_digits].
  rewrite digits2_all_digits by divlia.
  rewrite !digit_is_digit by divlia. reflexivity.
Qed.

Lemma digits2_inj a b :
  0 <= a <= 99 -> 0 <= b <= 99 -> digits2 a = digits2 b -> a = b.
Proof.
  intros Ha Hb Heq. unfold digits2 in Heq.
  injection Heq as Hhi Hlo.
  apply digit_inj in Hhi; [| divlia ..].
  apply digit_inj in Hlo; [| divlia ..].
  divlia.
Qed.

Lemma digits4_inj a b :
  0 <= a <= 9999 -> 0 <= b <= 9999 -> digits4 a = digits4 b -> a = b.
Proof.
  intros Ha Hb Heq. unfold digits4, digits2 in Heq.
  injection Heq as H1 H2 H3 H4.
  apply digit_inj in H1; [| divlia ..].
  apply digit_inj in H2; [| divlia ..].
  apply digit_inj in H3; [| divlia ..].
  apply digit_inj in H4; [| divlia ..].
  divlia.
Qed.

(* ===================================================================== *)
(** * [build_url]: the template and its injectivity                       *)
(* ===================================================================== *)

Lemma length_append (a b : string) :
  String.length (a +:+ b) = (String.length a + String.length b)%nat.
Proof.
  induction a as [|c a IH]; simpl; [reflexivity|].
  f_equal. exact IH.
Qed.

(** Two concatenations agree piecewise when their heads are as long. *)
Lemma append_inj_length (a a' b b' : string) :
  String.length a = String.length a' ->
  a +:+ b = a' +:+ b' -> a = a' /\ b = b'.
Proof.
  revert a'. induction a as [|c a IH]; intros [|c' a'] Hlen Heq;
    cbn [String.length] in Hlen; try discriminate.
  - split; [reflexivity | exact Heq].
  - cbn [append] in Heq. injection Heq as Hc Hrest.
    destruct (IH a' (eq_add_S _ _ Hlen) Hrest) as [-> ->].
    subst c'. split; reflexivity.
Qed.

Lemma length_digits2 n : String.length (digits2 n) = 2%nat.
Proof. reflexivity. Qed.

Lemma length_digits4 n : String.length (digits4 n) = 4%nat.
Proof. reflexivity. Qed.

(** The URL with every number written out at its fixed width. *)
Lemma build_url_digits y m d hh ver station :
  0 <= y <= 9999 -> 0 <= m <= 99 -> 0 <= d <= 99 -> 0 <= hh <= 99 ->
  build_url y m d hh ver station =
  BASE +:+ "/" +:+ digits4 y +:+ "/" +:+ digits2 m +:+ "/" +:+ digits2 d
       +:+ "/" +:+ ver +:+ "/" +:+ digits2 hh +:+ "/" +:+ station +:+ ".csv".
Proof.
  intros Hy Hm Hd Hh. unfold build_url.
  rewrite (format_0d_4 y Hy), (format_0d_2 m Hm), (format_0d_2 d Hd),
    (format_0d_2 hh Hh).
  reflexivity.
Qed.

Ltac split_append H :=
  apply append_inj_length in H; [destruct H as [? H] | reflexivity].

(** For one station, in-range keys with the same URL are the same key. *)
Lemma build_url_inj station y m d hh ver y' m' d' hh' ver' :
  0 <= y <= 9999 -> 0 <= m <= 99 -> 0 <= d <= 99 -> 0 <= hh <= 99 ->
  0 <= y' <= 9999 -> 0 <= m' <= 99 -> 0 <= d' <= 99 -> 0 <= hh' <= 99 ->
  build_url y m d hh ver station = build_url y' m' d' hh' ver' station ->
  y = y' /\ m = m' /\ d = d' /\ hh = hh' /\ ver = ver'.
Proof.
  intros Hy Hm Hd Hh Hy' Hm' Hd' Hh' Heq.
  rewrite !build_url_digits in Heq by assumption.
  assert (Hlen : String.length ver = String.length ver').
  { apply (f_equal String.length) in Heq.
    rewrite !length_append, !length_digits4, !length_digits2 in Heq. lia. }
  split_append Heq. split_append Heq.
  split_append Heq. split_append Heq.
  split_append Heq. split_append Heq.
  split_append Heq. split_append Heq.
  apply append_inj_length in Heq; [|exact Hlen]. destruct Heq as [Hver Heq].
  split_append Heq. split_append Heq.
  repeat split; try assumption;
    first [apply digits4_inj; assumption | apply digits2_inj; assumption].
Qed.

Lemma key_url_inj station k k' :
  key_in_range k -> key_in_range k' ->
  key_url station k = key_url station k' -> k = k'.
Proof.
  intros (Hy & Hm & Hd & Hh) (Hy' & Hm' & Hd' & Hh') Heq.
  unfold key_url in Heq.
  apply build_url_inj in Heq; try assumption.
  destruct Heq as (Ey & Em & Ed & Ehh & Ever).
  destruct k as [[y m d] hh ver], k' as [[y' m' d'] hh' ver'].
  cbn in *. subst. reflexivity.
Qed.

(** C4, as stated, fails: a year of five digits is written with five
    digits, so the URL of year 10000 does not follow the template with a
    four-digit year. *)
Lemma build_url_five_digit_year :
  build_url 10000 1 1 0 "NBM4.2" "KXMR" =
    "https://apps.gsl.noaa.gov/nbmviewer/data/archive/10000/01/01/NBM4.2/00/KXMR.csv"
  /\ ~ fits_template "NBM4.2" "KXMR" (build_url 10000 1 1 0 "NBM4.2" "KXMR").
Proof.
  split; [vm_compute; reflexivity|].
  intros (fy & fm & fd & fh & Ly & _ & _ & _ & _ & _ & _ & _ & Heq).
  replace (build_url 10000 1 1 0 "NBM4.2" "KXMR")
    with (BASE +:+ "/" +:+ "1000" +:+ "0" +:+ "/01/01/NBM4.2/00/KXMR.csv")
    in Heq by (vm_compute; reflexivity).
  split_append Heq. split_append Heq.
  apply append_inj_length in Heq; [|symmetry; exact Ly].
  destruct Heq as [_ Heq].
  cbn [append] in Heq. discriminate Heq.
Qed.

(** C4 (amended): for a year from 0 to 9999 and a month, day and hour from
    0 to 99, [build_url] returns base/YYYY/MM/DD/version/HH/station.csv with
    the numbers zero-padded to 4, 2, 2 and 2 digits; the configuration has
    6 stations, the 3 versions NBM4.2, NBM4.1, NBM4.0 (newest-named first),
    a lookback of 3 days, a timeout of 20 seconds on every request and a
    cache time-to-live of 300 seconds. *)
Theorem build_url_template y m d hh ver station :
  0 <= y <= 9999 -> 0 <= m <= 99 -> 0 <= d <= 99 -> 0 <= hh <= 99 ->
  (build_url y m d hh ver station =
     BASE +:+ "/" +:+ digits4 y +:+ "/" +:+ digits2 m +:+ "/" +:+ digits2 d
          +:+ "/" +:+ ver +:+ "/" +:+ digits2 hh +:+ "/" +:+ station +:+ ".csv"
   /\ fits_template ver station (build_url y m d hh ver station))
  /\ (length STATIONS = 6%nat
      /\ NBM_VERSIONS_TO_TRY = ["NBM4.2"; "NBM4.1"; "NBM4.0"]
      /\ newest_first NBM_VERSIONS_TO_TRY = true
      /\ DAYS_BACK = 3%nat /\ day_offsets = [0; 1; 2]%nat
      /\ TIMEOUT = 20
      /\ (forall url, req_timeout (head_request url) = 20
                      /\ req_timeout (get_stream_request url) = 20
                      /\ req_timeout (get_request url) = 20)
      /\ CACHE_TTL = 300%nat).
Proof.
  intros Hy Hm Hd Hh. split; [split|].
  - apply build_url_digits; assumption.
  - exists (digits4 y), (digits2 m), (digits2 d), (digits2 hh).
    rewrite digits4_all_digits, !digits2_all_digits by assumption.
    repeat split. apply build_url_digits; assumption.
  - repeat split.
Qed.

Lemma build_url_template_witness :
  build_url 2024 2 29 12 "NBM4.1" "KXMR" =
    "https://apps.gsl.noaa.gov/nbmviewer/data/archive/2024/02/29/NBM4.1/12/KXMR.csv".
Proof.
  destruct (build_url_template 2024 2 29 12 "NBM4.1" "KXMR"
              ltac:(lia) ltac:(lia) ltac:(lia) ltac:(lia)) as [[Hurl _] _].
  rewrite Hurl. reflexivity.
Defined.

(* ===================================================================== *)
(** * The existence check                                                 *)
(* ===================================================================== *)

(** C2, as stated, fails: the server rejects [HEAD] with 405 and answers
    the fallback [GET] with the success status 204, and the check says
    that the URL does not exist. *)
Lemma url_exists_get_204 :
  is_success 204 = true /\
  fst (url_exists_body (Scenario.verbs 405 204) Scenario.target (cold 0)) = false.
Proof. split; vm_compute; reflexivity. Qed.

Section ExistenceCheck.

Variable server : nat -> request -> reply * nat.

(** Unfold one existence check whose two replies are known. *)
Ltac run_check Hhead Hget :=
  unfold url_exists_body, url_exists_fallback, send;
  rewrite Hhead; cbn [now sent]; try rewrite Hget; cbn [now sent fst snd].

Lemma url_exists_body_unfold url w rh dh rg dg :
  server (now w) (head_request url) = (rh, dh) ->
  server (now w + dh)%nat (get_stream_request url) = (rg, dg) ->
  let head_only :=
    mkworld (now w + dh)%nat (exists_cache w) (find_cache w) (bytes_cache w)
            (sent w ++ [head_request url]) (probed w) in
  let head_then_get :=
    mkworld (now w + dh + dg)%nat (exists_cache w) (find_cache w) (bytes_cache w)
            ((sent w ++ [head_request url]) ++ [get_stream_request url]) (probed w) in
  let get_says := match rg with Responded r => status_code r =? 200 | Failed => false end in
  url_exists_body server url w =
    match rh with
    | Responded r =>
        if status_code r =? 200 then (true, head_only)
        else if (status_code r =? 403) || (status_code r =? 405)
             then (get_says, head_then_get)
             else (false, head_only)
    | Failed => (get_says, head_then_get)
    end.
Proof.
  intros Hhead Hget. run_check Hhead Hget.
  destruct rh as [r|]; [destruct (status_code r =? 200);
                         [reflexivity | destruct (_ || _); [|reflexivity]] |];
    destruct rg; reflexivity.
Qed.

(** C2 (amended): [HEAD] 200 gives true without a [GET]; [HEAD] 403 or 405,
    or a [HEAD] that raises, is followed by one [GET], and the answer is
    true exactly when that [GET] answers 200; any other [HEAD] status gives
    false without a [GET]; a [GET] that raises gives false.  So [HEAD] 405
    with [GET] 200 gives true. *)
Theorem url_exists_head_then_get url w rh dh rg dg :
  server (now w) (head_request url) = (rh, dh) ->
  server (now w + dh)%nat (get_stream_request url) = (rg, dg) ->
  let b := fst (url_exists_body server url w) in
  let issued := sent (snd (url_exists_body server url w)) in
  (forall r, rh = Responded r -> status_code r = 200 ->
     b = true /\ issued = sent w ++ [head_request url])
  /\ (rh = Failed \/
      (exists r, rh = Responded r /\ (status_code r = 403 \/ status_code r = 405)) ->
      issued = sent w ++ [head_request url; get_stream_request url] /\
      (b = true <-> exists r, rg = Responded r /\ status_code r = 200))
  /\ (forall r, rh = Responded r ->
        status_code r <> 200 -> status_code r <> 403 -> status_code r <> 405 ->
        b = false /\ issued = sent w ++ [head_request url])
  /\ (rg = Failed ->
      (forall r, rh = Responded r -> status_code r <> 200) -> b = false)
  /\ (forall r r', rh = Responded r -> status_code r = 405 ->
        rg = Responded r' -> status_code r' = 200 -> b = true).
Proof.
  intros Hhead Hget b issued. subst b issued.
  rewrite (url_exists_body_unfold url w rh dh rg dg Hhead Hget).
  split; [|split; [|split; [|split]]].
  - intros r -> E. rewrite E. split; reflexivity.
  - intros Hblocked.
    assert (Hgo : match rh with
                  | Responded r =>
                      (status_code r =? 200) = false /\
                      (status_code r =? 403) || (status_code r =? 405) = true
                  | Failed => True
                  end).
    { destruct Hblocked as [-> | (r & -> & [E|E])]; [exact I | |];
        rewrite E; split; reflexivity. }
    destruct rh as [r|]; [destruct Hgo as [-> ->]|]; cbn [fst snd sent];
      (split; [rewrite <- app_assoc; reflexivity|]);
      (split; [intros Hb; destruct rg as [r'|]; [|discriminate];
               exists r'; split; [reflexivity | apply Z.eqb_eq; exact Hb]
              | intros (r' & -> & E'); rewrite E'; reflexivity]).
  - intros r -> H200 H403 H405.
    destruct (Z.eqb_spec (status_code r) 200); [contradiction|].
    destruct (Z.eqb_spec (status_code r) 403); [contradiction|].
    destruct (Z.eqb_spec (status_code r) 405); [contradiction|].
    split; reflexivity.
  - intros -> Hhead200. destruct rh as [r|]; [|reflexivity].
    destruct (Z.eqb_spec (status_code r) 200) as [E|_];
      [destruct (Hhead200 r eq_refl E)|].
    destruct (_ || _); reflexivity.
  - intros r r' -> E -> E'. rewrite E. cbn. rewrite E'. reflexivity.
Qed.

(** C9: the existence check answers true only when a response it received
    has status exactly 200; another success status (201, 204, ...) on the
    [HEAD] gives false, and so does any status but 200 on the fallback
    [GET]. *)
Theorem url_exists_only_200 url w rh dh rg dg :
  server (now w) (head_request url) = (rh, dh) ->
  server (now w + dh)%nat (get_stream_request url) = (rg, dg) ->
  let b := fst (url_exists_body server url w) in
  (b = true ->
     (exists r, rh = Responded r /\ status_code r = 200) \/
     (exists r, rg = Responded r /\ status_code r = 200 /\
                In (get_stream_request url)
                   (sent (snd (url_exists_body server url w)))))
  /\ (forall r, rh = Responded r ->
        is_success (status_code r) = true -> status_code r <> 200 -> b = false)
  /\ (forall r, rg = Responded r -> status_code r <> 200 ->
        (forall r', rh = Responded r' -> status_code r' <> 200) -> b = false).
Proof.
  intros Hhead Hget b. subst b.
  rewrite (url_exists_body_unfold url w rh dh rg dg Hhead Hget).
  split; [|split].
  - destruct rh as [r|].
    + destruct (Z.eqb_spec (status_code r) 200) as [E|_];
        [intros _; left; exists r; split; [reflexivity | exact E]|].
      destruct (_ || _); cbn [fst snd sent]; [|discriminate].
      intros Hb. right. destruct rg as [r'|]; [|discriminate].
      exists r'. split; [reflexivity|]. split; [apply Z.eqb_eq; exact Hb|].
      apply in_or_app. right. left. reflexivity.
    + cbn [fst snd sent]. intros Hb. right. destruct rg as [r'|]; [|discriminate].
      exists r'. split; [reflexivity|]. split; [apply Z.eqb_eq; exact Hb|].
      apply in_or_app. right. left. reflexivity.
  - intros r -> Hok Hne. unfold is_success in Hok.
    destruct (Z.eqb_spec (status_code r) 200); [contradiction|].
    destruct (Z.eqb_spec (status_code r) 403); [lia|].
    destruct (Z.eqb_spec (status_code r) 405); [lia|].
    reflexivity.
  - intros r -> Hne Hhead200.
    assert (Hget200 : (status_code r =? 200) = false) by (apply Z.eqb_neq; exact Hne).
    destruct rh as [r'|]; [|cbn; exact Hget200].
    destruct (Z.eqb_spec (status_code r') 200) as [E|_];
      [destruct (Hhead200 r' eq_refl E)|].
    destruct (_ || _); cbn; [exact Hget200 | reflexivity].
Qed.

End ExistenceCheck.

(* ===================================================================== *)
(** * The scan: what it probes and what it returns                        *)
(* ===================================================================== *)

Lemma scan_outcome_nil station : scan_outcome station [] [] None.
Proof. reflexivity. Qed.

(** A scan that found nothing is continued by the next scan. *)
Lemma scan_outcome_app_none station ks1 ks2 t1 t2 r :
  scan_outcome station ks1 t1 None ->
  scan_outcome station ks2 t2 r ->
  scan_outcome station (ks1 ++ ks2) (t1 ++ t2) r.
Proof.
  intros H1 H2. cbn in H1. subst t1. destruct r as [found|]; cbn in *.
  - destruct H2 as (pre & k & post & -> & -> & ->).
    exists (ks1 ++ pre), k, post.
    rewrite map_app, <- !app_assoc. repeat split.
  - subst t2. rewrite map_app. reflexivity.
Qed.

(** A scan that found a result stops there. *)
Lemma scan_outcome_app_some station ks1 ks2 t1 found :
  scan_outcome station ks1 t1 (Some found) ->
  scan_outcome station (ks1 ++ ks2) t1 (Some found).
Proof.
  intros (pre & k & post & -> & -> & ->).
  exists pre, k, (post ++ ks2). rewrite <- app_assoc. repeat split.
Qed.

Section Scan.

Variable server : nat -> request -> reply * nat.
Variable utc_today : nat -> date.

Lemma same_stores_refl w : same_stores w w.
Proof. unfold same_stores. auto. Qed.

Lemma same_stores_trans w1 w2 w3 :
  same_stores w1 w2 -> same_stores w2 w3 -> same_stores w1 w3.
Proof.
  intros (A & B & C) (D & E & F).
  split; [congruence|]. split; [congruence | lia].
Qed.

Lemma url_exists_body_frame url w :
  probed (snd (url_exists_body server url w)) = probed w /\
  same_stores w (snd (url_exists_body server url w)).
Proof.
  unfold url_exists_body, url_exists_fallback, send, same_stores.
  destruct (server (now w) (head_request url)) as [[r|] dh]; cbn [now];
    [destruct (status_code r =? 200); [cbn; repeat split; lia|];
     destruct (_ || _); [|cbn; repeat split; lia] |];
    destruct (server _ (get_stream_request url)) as [[r'|] dg];
    cbn; repeat split; lia.
Qed.

(** Every call of [url_exists] is logged with its answer, cached or not. *)
Lemma url_exists_probed url w :
  probed (snd (url_exists server url w)) =
    probed w ++ [(url, fst (url_exists server url w))] /\
  same_stores w (snd (url_exists server url w)).
Proof.
  unfold url_exists.
  destruct (cache_lookup (exists_cache w) url (now w)) as [b|].
  - cbn. split; [reflexivity | unfold same_stores; auto].
  - pose proof (url_exists_body_frame url w) as [Hp Hs].
    destruct (url_exists_body server url w) as [b w1]. cbn in *.
    rewrite Hp. split; [reflexivity | exact Hs].
Qed.

Lemma scan_versions_outcome dy hh station vers :
  forall w,
  exists trace,
    let run := scan_versions server (year dy) (month dy) (day dy) hh station vers w in
    probed (snd run) = probed w ++ trace /\
    same_stores w (snd run) /\
    scan_outcome station (map (fun ver => mkkey dy hh ver) vers) trace (fst run).
Proof.
  induction vers as [|ver rest IH]; intros w; cbn [scan_versions].
  - exists []. cbn. rewrite app_nil_r. auto using same_stores_refl.
  - pose proof (url_exists_probed
                  (build_url (year dy) (month dy) (day dy) hh ver station) w)
      as [Hp Hs].
    destruct (url_exists server _ w) as [b w1]. cbn [fst snd] in Hp, Hs.
    destruct b.
    + exists [hit station (mkkey dy hh ver)]. cbn [fst snd].
      split; [exact Hp|]. split; [exact Hs|].
      exists [], (mkkey dy hh ver), (map (fun v => mkkey dy hh v) rest).
      repeat split.
    + destruct (IH w1) as (trace & Hp' & Hs' & Hout).
      exists (miss station (mkkey dy hh ver) :: trace). cbv zeta in *.
      split; [rewrite Hp', Hp, <- app_assoc; reflexivity|].
      split; [exact (same_stores_trans _ _ _ Hs Hs')|].
      apply (scan_outcome_app_none station [mkkey dy hh ver] _
               [miss station (mkkey dy hh ver)] trace);
        [reflexivity | exact Hout].
Qed.

Lemma scan_hours_outcome dy station hours :
  forall w,
  exists trace,
    let run := scan_hours server (year dy) (month dy) (day dy) station hours w in
    probed (snd run) = probed w ++ trace /\
    same_stores w (snd run) /\
    scan_outcome station
      (flat_map (fun hh => map (fun ver => mkkey dy hh ver) NBM_VERSIONS_TO_TRY) hours)
      trace (fst run).
Proof.
  induction hours as [|hh rest IH]; intros w; cbn [scan_hours flat_map].
  - exists []. cbn. rewrite app_nil_r. auto using same_stores_refl.
  - destruct (scan_versions_outcome dy hh station NBM_VERSIONS_TO_TRY w)
      as (t1 & Hp & Hs & Hout). cbv zeta in *.
    destruct (scan_versions server _ _ _ hh station NBM_VERSIONS_TO_TRY w)
      as [[found|] w1]; cbn [fst snd] in *.
    + exists t1. split; [exact Hp|]. split; [exact Hs|].
      apply scan_outcome_app_some. exact Hout.
    + destruct (IH w1) as (t2 & Hp' & Hs' & Hout').
      exists (t1 ++ t2).
      split; [rewrite Hp', Hp, <- app_assoc; reflexivity|].
      split; [exact (same_stores_trans _ _ _ Hs Hs')|].
      apply scan_outcome_app_none; assumption.
Qed.

Lemma scan_days_outcome today station offsets :
  forall days w,
  dates_back today offsets = Some days ->
  exists r trace,
    let run := scan_days server today station offsets w in
    fst run = Ok r /\
    probed (snd run) = probed w ++ trace /\
    same_stores w (snd run) /\
    scan_outcome station (search_space days) trace r.
Proof.
  induction offsets as [|off rest IH]; intros days w Hdays;
    cbn [scan_days dates_back] in *.
  - injection Hdays as <-. exists None, []. cbn. rewrite app_nil_r.
    auto using same_stores_refl.
  - destruct (date_sub today off) as [dy|]; [|discriminate].
    destruct (dates_back today rest) as [dys|]; [|discriminate].
    injection Hdays as <-.
    destruct (scan_hours_outcome dy station HOURS_DESC w) as (t1 & Hp & Hs & Hout).
    cbv zeta in *. fold (keys_of_day dy) in Hout.
    destruct (scan_hours server _ _ _ station HOURS_DESC w)
      as [[found|] w1]; cbn [fst snd] in *.
    + exists (Some found), t1. split; [reflexivity|].
      split; [exact Hp|]. split; [exact Hs|].
      unfold search_space. cbn [flat_map].
      apply scan_outcome_app_some. exact Hout.
    + destruct (IH dys w1 eq_refl) as (r & t2 & Hr & Hp' & Hs' & Hout').
      exists r, (t1 ++ t2). split; [exact Hr|].
      split; [rewrite Hp', Hp, <- app_assoc; reflexivity|].
      split; [exact (same_stores_trans _ _ _ Hs Hs')|].
      unfold search_space. cbn [flat_map].
      apply scan_outcome_app_none; assumption.
Qed.

End Scan.

(* ===================================================================== *)
(** * The days of the lookback window                                     *)
(* ===================================================================== *)

Lemma days_in_month_bounds y m : 28 <= days_in_month y m <= 31.
Proof.
  unfold days_in_month.
  destruct (m =? 2); [destruct (is_leap y); lia|].
  destruct (_ || _); lia.
Qed.

(** The day before a date is a date. *)
Lemma prev_day_valid d p : valid_date d -> prev_day d = Some p -> valid_date p.
Proof.
  unfold valid_date, prev_day, MINYEAR, MAXYEAR.
  intros (Hy & Hm & Hd) Hp.
  destruct (Z.ltb_spec 1 (day d)).
  { injection Hp as <-. cbn. lia. }
  destruct (Z.ltb_spec 1 (month d)).
  { injection Hp as <-. cbn.
    pose proof (days_in_month_bounds (year d) (month d - 1)). lia. }
  destruct (Z.ltb_spec 1 (year d)); [|discriminate].
  injection Hp as <-. cbn. lia.
Qed.

(** The day before a date differs from it in a field that went down, or
    in a month or year that went down. *)
Lemma prev_day_earlier d p :
  prev_day d = Some p ->
  year p < year d \/
  (year p = year d /\ (month p < month d \/ (month p = month d /\ day p < day d))).
Proof.
  unfold prev_day. intros Hp.
  destruct (Z.ltb_spec 1 (day d)); [injection Hp as <-; cbn; lia|].
  destruct (Z.ltb_spec 1 (month d)); [injection Hp as <-; cbn; lia|].
  destruct (Z.ltb_spec MINYEAR (year d)); [injection Hp as <-; cbn; lia|discriminate].
Qed.

(** The window is today, yesterday and the day before, in that order. *)
Lemma search_dates_three today days :
  search_dates today = Some days ->
  exists d1 d2,
    days = [today; d1; d2] /\ prev_day today = Some d1 /\ prev_day d1 = Some d2.
Proof.
  unfold search_dates, day_offsets, DAYS_BACK. cbn [seq dates_back date_sub].
  destruct (prev_day today) as [d1|] eqn:E1; [|discriminate].
  destruct (prev_day d1) as [d2|] eqn:E2; [|discriminate].
  intros Hdays. injection Hdays as <-. exists d1, d2. auto.
Qed.

Lemma search_dates_offsets today days :
  search_dates today = Some days ->
  forall off, (off < DAYS_BACK)%nat ->
    date_sub today off = Some (nth off days (mkdate 0 0 0)).
Proof.
  intros Hdays off Hoff.
  destruct (search_dates_three today days Hdays) as (d1 & d2 & -> & E1 & E2).
  unfold DAYS_BACK in Hoff.
  destruct off as [|[|[|off]]]; [| | |lia]; cbn [date_sub nth];
    rewrite ?E1, ?E2; reflexivity.
Qed.

(** On a host whose clock is past the first year, the window exists. *)
Lemma search_dates_defined today :
  valid_date today -> 2 <= year today -> exists days, search_dates today = Some days.
Proof.
  intros Hv Hy.
  assert (Hprev : forall d, 2 <= year d -> exists p,
             prev_day d = Some p /\ (year p = year d \/ (month p = 12 /\ year p = year d - 1))).
  { intros d Hd. unfold prev_day, MINYEAR.
    destruct (1 <? day d); [eexists; split; [reflexivity | cbn; lia]|].
    destruct (1 <? month d); [eexists; split; [reflexivity | cbn; lia]|].
    destruct (Z.ltb_spec 1 (year d)); [|lia].
    eexists; split; [reflexivity | cbn; lia]. }
  destruct (Hprev today Hy) as (d1 & E1 & H1).
  assert (E2 : exists d2, prev_day d1 = Some d2).
  { destruct H1 as [H1 | [Hm H1]].
    - destruct (Hprev d1 ltac:(lia)) as (d2 & E2 & _). eauto.
    - unfold prev_day. rewrite Hm.
      destruct (1 <? day d1); [eauto|]. cbn. eauto. }
  destruct E2 as (d2 & E2).
  exists [today; d1; d2].
  unfold search_dates, day_offsets, DAYS_BACK. cbn [seq dates_back date_sub].
  rewrite E1, E2. reflexivity.
Qed.

Lemma search_dates_valid today days :
  valid_date today -> search_dates today = Some days -> Forall valid_date days.
Proof.
  intros Hv Hdays.
  destruct (search_dates_three today days Hdays) as (d1 & d2 & -> & E1 & E2).
  pose proof (prev_day_valid _ _ Hv E1) as Hv1.
  pose proof (prev_day_valid _ _ Hv1 E2) as Hv2.
  constructor; [exact Hv|].
  constructor; [exact Hv1|].
  constructor; [exact Hv2 | constructor].
Qed.

Lemma search_dates_distinct today days :
  search_dates today = Some days -> List.NoDup days.
Proof.
  intros Hdays.
  destruct (search_dates_three today days Hdays) as (d1 & d2 & -> & E1 & E2).
  pose proof (prev_day_earlier _ _ E1) as L1.
  pose proof (prev_day_earlier _ _ E2) as L2.
  assert (today <> d1) by (intros ->; lia).
  assert (d1 <> d2) by (intros ->; lia).
  assert (today <> d2) by (intros ->; lia).
  constructor; [cbn; intuition congruence|].
  constructor; [cbn; intuition congruence|].
  constructor; [cbn; tauto | constructor].
Qed.

(* ===================================================================== *)
(** * Ranks in the priority order                                         *)
(* ===================================================================== *)

(** The search space, key by key: rank [i] holds day [i / 72], hour
    [23 - (i / 3) mod 24] and version [i mod 3]. *)
Lemma search_space_ranks days :
  length days = 3%nat -> search_space days = map (key_at days) (seq 0 216).
Proof.
  destruct days as [|d0 [|d1 [|d2 [|d3 rest]]]]; try discriminate.
  intros _. vm_compute. reflexivity.
Qed.

Lemma search_dates_length today days :
  search_dates today = Some days -> length days = 3%nat.
Proof.
  intros Hdays.
  destruct (search_dates_three today days Hdays) as (d1 & d2 & -> & _).
  reflexivity.
Qed.

(** Where a list of ranked items is cut, the cut is at a rank. *)
Lemma map_seq_cut {A : Type} (f : nat -> A) (n : nat) (pre post : list A) (x : A) :
  map f (seq 0 n) = pre ++ x :: post ->
  (length pre < n)%nat /\ pre = map f (seq 0 (length pre)) /\ x = f (length pre).
Proof.
  intros Hcut.
  assert (Hlen : (length pre < n)%nat).
  { apply (f_equal (@length A)) in Hcut.
    rewrite length_map, length_seq, length_app in Hcut. cbn in Hcut. lia. }
  split; [exact Hlen|].
  replace n with (length pre + S (n - length pre - 1))%nat in Hcut by lia.
  rewrite seq_app, map_app in Hcut. cbn [seq map plus] in Hcut.
  apply app_inj_1 in Hcut; [|rewrite length_map, length_seq; reflexivity].
  destruct Hcut as [Hpre Hrest]. injection Hrest as Hx _.
  split; [symmetry; exact Hpre | symmetry; exact Hx].
Qed.


(** The outcome of a scan over ranked keys, by rank. *)
Lemma scan_outcome_ranked station (f : nat -> SearchKey) n trace r :
  scan_outcome station (map f (seq 0 n)) trace r ->
  (r = None /\ trace = map (fun i => miss station (f i)) (seq 0 n)) \/
  (exists i, (i < n)%nat /\ r = Some (key_result station (f i)) /\
     trace = map (fun j => miss station (f j)) (seq 0 i) ++ [hit station (f i)]).
Proof.
  destruct r as [found|]; cbn.
  - intros (pre & k & post & Hcut & -> & ->). right.
    destruct (map_seq_cut f n pre post k Hcut) as (Hlt & Hpre & ->).
    exists (length pre). split; [exact Hlt|]. split; [reflexivity|].
    rewrite Hpre at 1. rewrite map_map. reflexivity.
  - intros ->. left. split; [reflexivity|]. rewrite map_map. reflexivity.
Qed.

Lemma rank_bounds i :
  (i < 216)%nat -> (i / 72 < 3 /\ (i / 3) mod 24 < 24 /\ i mod 3 < 3)%nat.
Proof.
  intros Hi.
  assert (Hz : Z.of_nat (i / 72) < 3 /\ Z.of_nat ((i / 3) mod 24) < 24 /\
               Z.of_nat (i mod 3) < 3).
  { rewrite ?Nat2Z.inj_mod, ?Nat2Z.inj_div.
    cbn [Z.of_nat Pos.of_succ_nat Pos.succ]. Z.div_mod_to_equations. lia. }
  lia.
Qed.

(** A rank is its day, its hour and its version. *)
Lemma rank_inj i j :
  (i < 216)%nat -> (j < 216)%nat ->
  (i / 72 = j / 72)%nat -> ((i / 3) mod 24 = (j / 3) mod 24)%nat ->
  (i mod 3 = j mod 3)%nat -> i = j.
Proof.
  intros Hi Hj H1 H2 H3.
  apply (f_equal Z.of_nat) in H1, H2, H3. apply Nat2Z.inj.
  rewrite ?Nat2Z.inj_mod, ?Nat2Z.inj_div in *.
  cbn [Z.of_nat Pos.of_succ_nat Pos.succ] in *.
  Z.div_mod_to_equations. lia.
Qed.

Lemma versions_nodup : List.NoDup NBM_VERSIONS_TO_TRY.
Proof.
  unfold NBM_VERSIONS_TO_TRY.
  constructor; [cbn; intros [E|[E|[]]]; discriminate E|].
  constructor; [cbn; intros [E|[]]; discriminate E|].
  constructor; [cbn; tauto | constructor].
Qed.

Lemma key_at_inj days i j :
  length days = 3%nat -> List.NoDup days ->
  (i < 216)%nat -> (j < 216)%nat ->
  key_at days i = key_at days j -> i = j.
Proof.
  intros Hlen Hnd Hi Hj Heq.
  destruct (rank_bounds i Hi) as (Di & Hhi & Vi).
  destruct (rank_bounds j Hj) as (Dj & Hhj & Vj).
  pose proof (f_equal k_date Heq) as Hd.
  pose proof (f_equal k_hour Heq) as Hh.
  pose proof (f_equal k_version Heq) as Hv.
  cbn [key_at k_date k_hour k_version] in Hd, Hh, Hv.
  apply rank_inj; try assumption.
  - apply (proj1 (NoDup_nth days (mkdate 0 0 0)) Hnd); [lia | lia | exact Hd].
  - lia.
  - apply (proj1 (NoDup_nth NBM_VERSIONS_TO_TRY "") versions_nodup);
      [exact Vi | exact Vj | exact Hv].
Qed.

(** Every rank is a key of the space: a day of the window, an hour from
    0 to 23 and a listed version. *)
Lemma key_at_space today days i :
  search_dates today = Some days -> (i < 216)%nat ->
  (exists off, (off < DAYS_BACK)%nat /\
     date_sub today off = Some (k_date (key_at days i))) /\
  0 <= k_hour (key_at days i) <= 23 /\
  In (k_version (key_at days i)) NBM_VERSIONS_TO_TRY.
Proof.
  intros Hdays Hi. destruct (rank_bounds i Hi) as (Di & Hh & Vi).
  split; [|split].
  - exists (i / 72)%nat. split; [exact Di|].
    apply (search_dates_offsets today days Hdays). exact Di.
  - cbn [key_at k_hour]. lia.
  - cbn [key_at k_version]. apply nth_In. exact Vi.
Qed.

Lemma key_at_in_range today days i :
  valid_date today -> search_dates today = Some days -> (i < 216)%nat ->
  key_in_range (key_at days i).
Proof.
  intros Hv Hdays Hi. destruct (rank_bounds i Hi) as (Di & Hh & _).
  pose proof (search_dates_valid today days Hv Hdays) as Hall.
  rewrite List.Forall_forall in Hall.
  assert (Hin : In (nth (i / 72) days (mkdate 0 0 0)) days).
  { apply nth_In. rewrite (search_dates_length today days Hdays). exact Di. }
  destruct (Hall _ Hin) as (Hy & Hm & Hd). unfold MINYEAR, MAXYEAR in Hy.
  pose proof (days_in_month_bounds (year (nth (i / 72) days (mkdate 0 0 0)))
                (month (nth (i / 72) days (mkdate 0 0 0)))).
  unfold key_in_range. cbn [key_at k_date k_hour]. lia.
Qed.

(** The URLs of the ranks are pairwise different. *)
Lemma ranked_urls_nodup station today days m :
  valid_date today -> search_dates today = Some days -> (m <= 216)%nat ->
  List.NoDup (map (fun i => key_url station (key_at days i)) (seq 0 m)).
Proof.
  intros Hv Hdays Hm.
  apply NoDup_map_NoDup_ForallPairs; [|apply seq_NoDup].
  intros i j Hi Hj Heq. apply in_seq in Hi, Hj.
  apply (key_at_inj days);
    [exact (search_dates_length _ _ Hdays) | exact (search_dates_distinct _ _ Hdays)
    | lia | lia |].
  apply (key_url_inj station);
    [apply (key_at_in_range today) | apply (key_at_in_range today) | exact Heq];
    first [assumption | lia].
Qed.

(* ===================================================================== *)
(** * The locator                                                         *)
(* ===================================================================== *)

Section Search.

Variable server : nat -> request -> reply * nat.
Variable utc_today : nat -> date.
Variable read_csv : bytes -> result (nat * nat).

Lemma find_latest_csv_body_outcome station w days :
  search_dates (utc_today (now w)) = Some days ->
  exists r trace,
    let run := find_latest_csv_body server utc_today station w in
    fst run = Ok r /\
    probed (snd run) = probed w ++ trace /\
    same_stores w (snd run) /\
    scan_outcome station (search_space days) trace r.
Proof.
  intros Hdays. unfold find_latest_csv_body.
  exact (scan_days_outcome server (utc_today (now w)) station day_offsets days w Hdays).
Qed.

(** C1: a search scans the keys by rank -- day [i / 72] of the window
    (today first, then each previous day), hour [23 - (i / 3) mod 24]
    (23 down to 0), version [i mod 3] of NBM4.2, NBM4.1, NBM4.0 -- and
    returns the key of the first rank whose URL the existence check
    confirms: the ranks before it were probed and answered false, and no
    rank after it is probed. *)
Theorem find_latest_csv_priority_order station w days :
  search_dates (utc_today (now w)) = Some days ->
  let run := find_latest_csv_body server utc_today station w in
  (forall off, (off < DAYS_BACK)%nat ->
     date_sub (utc_today (now w)) off = Some (nth off days (mkdate 0 0 0)))
  /\ HOURS_DESC = [23; 22; 21; 20; 19; 18; 17; 16; 15; 14; 13; 12;
                   11; 10; 9; 8; 7; 6; 5; 4; 3; 2; 1; 0]
  /\ search_space days = map (key_at days) (seq 0 216)
  /\ exists trace,
       probed (snd run) = probed w ++ trace /\
       ((fst run = Ok None /\
         trace = map (fun i => miss station (key_at days i)) (seq 0 216))
        \/
        (exists i, (i < 216)%nat /\
           fst run = Ok (Some (key_result station (key_at days i))) /\
           trace = map (fun j => miss station (key_at days j)) (seq 0 i)
                     ++ [hit station (key_at days i)])).
Proof.
  intros Hdays run.
  split; [exact (search_dates_offsets _ _ Hdays)|].
  split; [reflexivity|].
  pose proof (search_space_ranks days (search_dates_length _ _ Hdays)) as Hranks.
  split; [exact Hranks|].
  destruct (find_latest_csv_body_outcome station w days Hdays)
    as (r & trace & Hr & Hp & _ & Hout).
  cbv zeta in Hr, Hp. fold run in Hr, Hp.
  exists trace. split; [exact Hp|].
  rewrite Hranks in Hout.
  destruct (scan_outcome_ranked station (key_at days) 216 trace r Hout)
    as [[-> ->] | (i & Hi & -> & ->)].
  - left. split; [exact Hr | reflexivity].
  - right. exists i. split; [exact Hi|]. split; [exact Hr | reflexivity].
Qed.

Lemma download_csv_bytes_probed url w :
  probed (snd (download_csv_bytes server url w)) = probed w /\
  find_cache (snd (download_csv_bytes server url w)) = find_cache w.
Proof.
  unfold download_csv_bytes, download_csv_bytes_body, send.
  destruct (cache_lookup (bytes_cache w) url (now w)); [split; reflexivity|].
  destruct (server (now w) (get_request url)) as [[r|] dt]; [|split; reflexivity].
  destruct (is_http_error (status_code r)); split; reflexivity.
Qed.

(** A search that is not answered from the result store runs the body
    and stores what it returns. *)
Lemma find_latest_csv_miss station w :
  cache_lookup (find_cache w) station (now w) = None ->
  let body := find_latest_csv_body server utc_today station w in
  fst (find_latest_csv server utc_today station w) = fst body /\
  probed (snd (find_latest_csv server utc_today station w)) = probed (snd body) /\
  sent (snd (find_latest_csv server utc_today station w)) = sent (snd body) /\
  now (snd (find_latest_csv server utc_today station w)) = now (snd body).
Proof.
  intros Hmiss body. subst body. unfold find_latest_csv. rewrite Hmiss.
  destruct (find_latest_csv_body server utc_today station w) as [[found|e] w1];
    repeat split.
Qed.

Lemma on_button_probed station w :
  probed (snd (on_button server utc_today read_csv station w)) =
  probed (snd (find_latest_csv server utc_today station w)).
Proof.
  unfold on_button.
  destruct (find_latest_csv server utc_today station w) as [[[found|]|e] w1];
    cbn [fst snd]; try reflexivity.
  pose proof (download_csv_bytes_probed (res_url found) w1) as [Hp _].
  destruct (download_csv_bytes server (res_url found) w1) as [[b|e] w2];
    cbn [fst snd] in *; [destruct (read_csv b)|]; exact Hp.
Qed.

(** C3: when every existence check of a search answers false, the search
    returns no result after exactly days x 24 x versions = 216 checks, one
    per key of the space, and the page shows the not-found message instead
    of failing with an exception. *)
Theorem not_found_after_216_checks station w days :
  search_dates (utc_today (now w)) = Some days ->
  cache_lookup (find_cache w) station (now w) = None ->
  let search := find_latest_csv server utc_today station w in
  let press := on_button server utc_today read_csv station w in
  exists trace,
    probed (snd search) = probed w ++ trace /\
    probed (snd press) = probed w ++ trace /\
    (Forall (fun p => snd p = false) trace ->
       fst search = Ok None /\
       length trace = (DAYS_BACK * 24 * length NBM_VERSIONS_TO_TRY)%nat /\
       length trace = 216%nat /\
       map fst trace = map (key_url station) (search_space days) /\
       fst press = NotFound (not_found_message station)).
Proof.
  intros Hdays Hmiss search press.
  destruct (find_latest_csv_body_outcome station w days Hdays)
    as (r & trace & Hr & Hp & _ & Hout). cbv zeta in Hr, Hp.
  destruct (find_latest_csv_miss station w Hmiss) as (Hfst & Hprobed & _).
  fold search in Hfst, Hprobed.
  exists trace.
  split; [rewrite Hprobed; exact Hp|].
  split; [subst press; rewrite on_button_probed; fold search;
          rewrite Hprobed; exact Hp|].
  intros Hall. destruct r as [found|].
  - destruct Hout as (pre & k & post & _ & _ & ->).
    apply Forall_app in Hall as [_ Hhit].
    inversion Hhit as [|? ? Habsurd]. discriminate Habsurd.
  - cbn in Hout. subst trace.
    assert (Hnone : fst search = Ok None) by (rewrite Hfst; exact Hr).
    split; [exact Hnone|].
    rewrite length_map, (search_space_ranks days (search_dates_length _ _ Hdays)).
    rewrite length_map, length_seq.
    split; [reflexivity|]. split; [reflexivity|].
    split; [rewrite map_map; reflexivity|].
    subst press. unfold on_button. fold search.
    destruct search as [res w1]. cbn [fst] in Hnone. subst res. reflexivity.
Qed.

(** The URLs a search probes are those of the first [m] ranks. *)
Lemma find_latest_csv_body_probes station w days :
  search_dates (utc_today (now w)) = Some days ->
  let run := find_latest_csv_body server utc_today station w in
  exists m trace r,
    (m <= 216)%nat /\
    fst run = Ok r /\
    probed (snd run) = probed w ++ trace /\
    map fst trace = map (fun i => key_url station (key_at days i)) (seq 0 m) /\
    ((r = None /\ m = 216%nat /\ Forall (fun p => snd p = false) trace) \/
     (exists i, m = S i /\ r = Some (key_result station (key_at days i)) /\
        trace = map (fun j => miss station (key_at days j)) (seq 0 i)
                  ++ [hit station (key_at days i)])).
Proof.
  intros Hdays run.
  destruct (find_latest_csv_body_outcome station w days Hdays)
    as (r & trace & Hr & Hp & _ & Hout).
  cbv zeta in Hr, Hp. fold run in Hr, Hp.
  rewrite (search_space_ranks days (search_dates_length _ _ Hdays)) in Hout.
  destruct (scan_outcome_ranked station (key_at days) 216 trace r Hout)
    as [[-> ->] | (i & Hi & -> & ->)].
  - exists 216%nat, (map (fun i => miss station (key_at days i)) (seq 0 216)), None.
    split; [lia|]. split; [exact Hr|]. split; [exact Hp|].
    split; [rewrite map_map; reflexivity|].
    left. split; [reflexivity|]. split; [reflexivity|].
    apply List.Forall_forall. intros p Hin.
    apply in_map_iff in Hin as (j & <- & _). reflexivity.
  - exists (S i), (map (fun j => miss station (key_at days j)) (seq 0 i)
                     ++ [hit station (key_at days i)]),
      (Some (key_result station (key_at days i))).
    split; [lia|]. split; [exact Hr|]. split; [exact Hp|].
    split; [rewrite seq_S, !map_app, map_map; reflexivity|].
    right. exists i. repeat split.
Qed.

(** C5: the keys probed during one search are the first keys of the
    space in its priority order; they are pairwise different and so are
    their URLs, so no key is probed twice; each one lies in the window
    (a day at most [DAYS_BACK - 1] days back, an hour from 0 to 23, a
    listed version); and no other key has its URL probed. *)
Theorem probes_inside_space_at_most_once station w days :
  valid_date (utc_today (now w)) ->
  search_dates (utc_today (now w)) = Some days ->
  let run := find_latest_csv_body server utc_today station w in
  exists keys rest trace,
    probed (snd run) = probed w ++ trace /\
    map fst trace = map (key_url station) keys /\
    search_space days = keys ++ rest /\
    List.NoDup keys /\
    List.NoDup (map fst trace) /\
    (forall k, In k keys ->
       (exists off, (off < DAYS_BACK)%nat /\
          date_sub (utc_today (now w)) off = Some (k_date k)) /\
       0 <= k_hour k <= 23 /\
       In (k_version k) NBM_VERSIONS_TO_TRY) /\
    (forall k, key_in_range k ->
       In (key_url station k) (map fst trace) -> In k keys).
Proof.
  intros Hv Hdays run.
  destruct (find_latest_csv_body_probes station w days Hdays)
    as (m & trace & r & Hm & _ & Hp & Hurls & _). fold run in Hp.
  pose proof (ranked_urls_nodup station _ days m Hv Hdays Hm) as Hnd.
  exists (map (key_at days) (seq 0 m)), (map (key_at days) (seq m (216 - m))), trace.
  split; [exact Hp|].
  split; [rewrite map_map; exact Hurls|].
  split.
  { rewrite (search_space_ranks days (search_dates_length _ _ Hdays)).
    rewrite <- map_app, <- seq_app. f_equal. f_equal. lia. }
  split.
  { apply (NoDup_map_inv (key_url station)). rewrite map_map. exact Hnd. }
  split; [rewrite Hurls; exact Hnd|].
  split.
  - intros k Hin. apply in_map_iff in Hin as (i & <- & Hi). apply in_seq in Hi.
    apply (key_at_space _ days i Hdays). lia.
  - intros k Hrange Hin. rewrite Hurls in Hin.
    apply in_map_iff in Hin as (i & Heq & Hi).
    apply in_map_iff. exists i. split; [|exact Hi].
    apply in_seq in Hi.
    apply (key_url_inj station); [|exact Hrange | exact Heq].
    apply (key_at_in_range _ days i Hv Hdays). lia.
Qed.

Lemma key_result_url_matches station k : url_matches station (key_result station k).
Proof. reflexivity. Qed.

Lemma scan_days_consistent today station offsets :
  forall w,
  let run := scan_days server today station offsets w in
  same_stores w (snd run) /\
  (forall found, fst run = Ok (Some found) -> url_matches station found).
Proof.
  induction offsets as [|off rest IH]; intros w; cbn [scan_days].
  - split; [apply same_stores_refl | discriminate].
  - destruct (date_sub today off) as [dy|];
      [|split; [apply same_stores_refl | discriminate]].
    destruct (scan_hours_outcome server dy station HOURS_DESC w)
      as (trace & _ & Hs & Hout). cbv zeta in *.
    destruct (scan_hours server _ _ _ station HOURS_DESC w)
      as [[found|] w1]; cbn [fst snd] in *.
    + split; [exact Hs|]. intros found' Heq. injection Heq as <-.
      destruct Hout as (pre & k & post & _ & -> & _).
      apply key_result_url_matches.
    + destruct (IH w1) as [Hs' Hok].
      split; [exact (same_stores_trans _ _ _ Hs Hs') | exact Hok].
Qed.

Lemma find_latest_csv_consistent station w :
  find_cache_consistent w ->
  let search := find_latest_csv server utc_today station w in
  find_cache_consistent (snd search) /\
  (forall found, fst search = Ok (Some found) -> url_matches station found).
Proof.
  intros Hinv search. subst search. unfold find_latest_csv.
  destruct (cache_lookup (find_cache w) station (now w)) as [cached|] eqn:Hlook.
  - split; [exact Hinv|]. cbn [fst]. intros found Heq. injection Heq as ->.
    unfold cache_lookup in Hlook.
    destruct (find_cache w !! station) as [[v stored]|] eqn:Hentry; [|discriminate].
    destruct (now w <? stored + CACHE_TTL)%nat; [|discriminate].
    injection Hlook as ->. exact (Hinv station found stored Hentry).
  - pose proof (scan_days_consistent (utc_today (now w)) station day_offsets w)
      as [(Hfind & _) Hok]. cbv zeta in *.
    unfold find_latest_csv_body.
    destruct (scan_days server (utc_today (now w)) station day_offsets w)
      as [[r|e] w1]; cbn [fst snd] in *.
    + split; [|intros found Heq; apply Hok; exact Heq].
      intros st found stored. cbn [set_find_cache find_cache].
      destruct (decide (station = st)) as [<-|Hne].
      * rewrite lookup_insert_eq. intros Heq. injection Heq as -> _.
        apply Hok. reflexivity.
      * rewrite lookup_insert_ne by exact Hne. rewrite Hfind. apply Hinv.
    + split; [|discriminate].
      intros st found stored. rewrite Hfind. apply Hinv.
Qed.

(** C10: a result of [find_latest_csv], computed or taken from the result
    store, carries the URL that [build_url] gives for its own year, month,
    day, hour and version and the searched station; the page downloads
    that URL and shows that metadata. *)
Theorem found_url_matches_metadata station w :
  find_cache_consistent w ->
  let search := find_latest_csv server utc_today station w in
  let press := on_button server utc_today read_csv station w in
  find_cache_consistent (snd search) /\
  find_cache_consistent (snd press) /\
  (forall found,
     fst (find_latest_csv_body server utc_today station w) = Ok (Some found) ->
     res_url found =
       build_url (res_year found) (res_month found) (res_day found)
                 (res_hour found) (res_version found) station) /\
  (forall found,
     fst search = Ok (Some found) ->
     res_url found =
       build_url (res_year found) (res_month found) (res_day found)
                 (res_hour found) (res_version found) station) /\
  (forall message source_url shape data file_name,
     fst press = Offered message source_url shape data file_name ->
     exists found,
       fst search = Ok (Some found) /\
       source_url = res_url found /\
       message = success_message found /\
       file_name = filename station found /\
       fst (download_csv_bytes server (res_url found) (snd search)) = Ok data).
Proof.
  intros Hinv search press.
  destruct (find_latest_csv_consistent station w Hinv) as [Hinv' Hok].
  fold search in Hinv', Hok.
  split; [exact Hinv'|].
  split.
  { subst press. unfold on_button. fold search.
    destruct search as [[[found|]|e] w1]; cbn [fst snd] in *; try exact Hinv'.
    pose proof (download_csv_bytes_probed (res_url found) w1) as [_ Hfind].
    destruct (download_csv_bytes server (res_url found) w1) as [[b|e] w2];
      cbn [fst snd] in *;
      [destruct (read_csv b)|];
      intros st f stored; cbn [snd]; rewrite Hfind; apply Hinv'. }
  split.
  { intros found Hbody.
    apply (proj2 (scan_days_consistent (utc_today (now w)) station day_offsets w)).
    exact Hbody. }
  split; [exact Hok|].
  intros message source_url shape data file_name Hpress.
  subst press. unfold on_button in Hpress. fold search in Hpress.
  destruct search as [[[found|]|e] w1]; cbn [fst snd] in *; try discriminate.
  destruct (download_csv_bytes server (res_url found) w1) as [[b|e] w2] eqn:Hdl;
    cbn [fst] in *; [|discriminate].
  destruct (read_csv b); cbn [fst] in Hpress; [|discriminate].
  injection Hpress as <- <- <- <- <-.
  exists found. rewrite Hdl. repeat split.
Qed.

Lemma on_button_offered station w message source_url shape data file_name :
  fst (on_button server utc_today read_csv station w)
    = Offered message source_url shape data file_name ->
  exists found,
    fst (find_latest_csv server utc_today station w) = Ok (Some found) /\
    file_name = filename station found.
Proof.
  unfold on_button. intros Hpress.
  destruct (find_latest_csv server utc_today station w) as [[[found|]|e] w1];
    cbn [fst snd] in *; try discriminate.
  destruct (download_csv_bytes server (res_url found) w1) as [[b|e] w2];
    cbn [fst] in *; [|discriminate].
  destruct (read_csv b); cbn [fst] in Hpress; [|discriminate].
  injection Hpress as <- <- <- <- <-.
  exists found. split; reflexivity.
Qed.

Lemma filename_in_range station k :
  key_in_range k ->
  filename station (key_result station k) = filename_digits station (key_result station k).
Proof.
  intros (Hy & Hm & Hd & Hh). unfold filename, filename_digits.
  cbn [key_result res_year res_month res_day res_hour res_version].
  rewrite (format_0d_4 _ Hy), (format_0d_2 _ Hm), (format_0d_2 _ Hd), (format_0d_2 _ Hh).
  reflexivity.
Qed.

(** C7: the file name offered for a found result is
    station_YYYYMMDDHH_version.csv, written from the metadata of the
    result; and when the only URL that the existence check confirms is
    yesterday's 12Z run of NBM4.1, the search returns exactly that run and
    the file name is station_(yesterday as YYYYMMDD)12_NBM4.1.csv. *)
Theorem filename_of_found station w days :
  valid_date (utc_today (now w)) ->
  search_dates (utc_today (now w)) = Some days ->
  cache_lookup (find_cache w) station (now w) = None ->
  let run := find_latest_csv_body server utc_today station w in
  let press := on_button server utc_today read_csv station w in
  (forall found,
     fst run = Ok (Some found) ->
     filename station found = filename_digits station found)
  /\ (forall message source_url shape data file_name,
        fst press = Offered message source_url shape data file_name ->
        exists found,
          fst run = Ok (Some found) /\ file_name = filename_digits station found)
  /\ (forall yesterday,
        date_sub (utc_today (now w)) 1 = Some yesterday ->
        let target := mkkey yesterday 12 "NBM4.1" in
        exists trace,
          probed (snd run) = probed w ++ trace /\
          ((forall u b, In (u, b) trace -> (b = true <-> u = key_url station target)) ->
           fst run = Ok (Some (mkresult (key_url station target) (year yesterday)
                                        (month yesterday) (day yesterday) 12 "NBM4.1")) /\
           filename station (key_result station target) =
             station +:+ "_" +:+ digits4 (year yesterday) +:+ digits2 (month yesterday)
                     +:+ digits2 (day yesterday) +:+ "12" +:+ "_NBM4.1.csv")).
Proof.
  intros Hv Hdays Hmiss run press.
  destruct (find_latest_csv_body_probes station w days Hdays)
    as (m & trace & r & Hm & Hr & Hp & Hurls & Hcases). fold run in Hr, Hp.
  assert (Hfound : forall found, fst run = Ok (Some found) ->
            filename station found = filename_digits station found).
  { intros found Hrun. rewrite Hr in Hrun. injection Hrun as ->.
    destruct Hcases as [[Habs _] | (i & -> & Hsome & _)]; [discriminate|].
    injection Hsome as ->.
    apply filename_in_range, (key_at_in_range _ days i Hv Hdays). lia. }
  split; [exact Hfound|].
  split.
  { intros message source_url shape data file_name Hpress.
    destruct (on_button_offered station w _ _ _ _ _ Hpress) as (found & Hsearch & ->).
    destruct (find_latest_csv_miss station w Hmiss) as (Hfst & _).
    fold run in Hfst. rewrite Hfst in Hsearch.
    exists found. split; [exact Hsearch | apply Hfound; exact Hsearch]. }
  intros yesterday Hyest target.
  assert (Htarget : key_at days 106 = target).
  { pose proof (search_dates_offsets _ days Hdays 1%nat ltac:(unfold DAYS_BACK; lia)) as H1.
    rewrite Hyest in H1. injection H1 as H1.
    unfold key_at. cbn [Nat.div Nat.modulo Nat.divmod fst snd Nat.sub nth Z.of_nat
                        NBM_VERSIONS_TO_TRY].
    rewrite <- H1. reflexivity. }
  assert (Hrange : key_in_range target).
  { rewrite <- Htarget. apply (key_at_in_range _ days 106 Hv Hdays). lia. }
  exists trace. split; [exact Hp|].
  intros Honly.
  assert (Hname : filename station (key_result station target) =
             station +:+ "_" +:+ digits4 (year yesterday) +:+ digits2 (month yesterday)
                     +:+ digits2 (day yesterday) +:+ "12" +:+ "_NBM4.1.csv").
  { rewrite (filename_in_range station target Hrange). reflexivity. }
  split; [|exact Hname].
  rewrite Hr.
  destruct Hcases as [(-> & -> & Hall) | (i & -> & -> & Htrace)].
  - exfalso.
    assert (Hin : In (key_url station target) (map fst trace)).
    { rewrite Hurls, <- Htarget.
      apply (in_map (fun i => key_url station (key_at days i))), in_seq. lia. }
    apply in_map_iff in Hin as ([u b] & Hu & Hin). cbn [fst] in Hu. subst u.
    rewrite List.Forall_forall in Hall. pose proof (Hall _ Hin) as Hb.
    cbn [snd] in Hb. subst b.
    destruct (Honly _ _ Hin) as [_ Habs]. discriminate (Habs eq_refl).
  - assert (Hin : In (hit station (key_at days i)) trace).
    { rewrite Htrace. apply in_or_app. right. left. reflexivity. }
    destruct (Honly _ _ Hin) as [Hurl _]. specialize (Hurl eq_refl).
    apply key_url_inj in Hurl;
      [|apply (key_at_in_range _ days i Hv Hdays); lia | exact Hrange].
    rewrite Hurl. reflexivity.
Qed.

End Search.

(* ===================================================================== *)
(** * The download and the errors that reach the user                     *)
(* ===================================================================== *)

(** C6, as stated, fails: 300 is not a success status, and on a response
    with status 300 the download raises nothing and returns the body. *)
Lemma download_status_300_returns :
  is_success 300 = false /\
  fst (download_csv_bytes_body (Scenario.always 300) Scenario.target (cold 0)) = Ok [].
Proof. split; vm_compute; reflexivity. Qed.

Section Download.

Variable server : nat -> request -> reply * nat.
Variable utc_today : nat -> date.
Variable read_csv : bytes -> result (nat * nat).

(** C6 (amended): the download returns the raw bytes of the response on
    every success status, and on every status outside 400-599; it raises
    an HTTP error on every 4xx and 5xx status and a transport error when
    the request fails.  An exception of the download leaves the script
    uncaught, while an existence check whose requests all fail answers
    false. *)
Theorem download_csv_bytes_outcomes url w rg dg :
  server (now w) (get_request url) = (rg, dg) ->
  let out := fst (download_csv_bytes_body server url w) in
  (forall r, rg = Responded r -> is_success (status_code r) = true ->
     out = Ok (content r))
  /\ (forall r, rg = Responded r -> ~ 400 <= status_code r < 600 ->
        out = Ok (content r))
  /\ (forall r, rg = Responded r -> 400 <= status_code r < 600 ->
        out = Raise (HTTPError (status_code r)))
  /\ (rg = Failed -> out = Raise RequestException)
  /\ (forall station found w0 e,
        find_latest_csv server utc_today station w0 = (Ok (Some found), w) ->
        res_url found = url ->
        cache_lookup (bytes_cache w) url (now w) = None ->
        out = Raise e ->
        fst (on_button server utc_today read_csv station w0) = Uncaught e)
  /\ (forall u w0 dh dg',
        server (now w0) (head_request u) = (Failed, dh) ->
        server (now w0 + dh)%nat (get_stream_request u) = (Failed, dg') ->
        fst (url_exists_body server u w0) = false).
Proof.
  intros Hget out. subst out.
  unfold download_csv_bytes_body at 1 2 3 4 5, send. rewrite Hget.
  split; [|split; [|split; [|split; [|split]]]].
  - intros r -> Hok. unfold is_success in Hok. unfold is_http_error.
    destruct (Z.leb_spec 400 (status_code r)); [lia | reflexivity].
  - intros r -> Hout. unfold is_http_error.
    destruct (Z.leb_spec 400 (status_code r)); [|reflexivity].
    destruct (Z.ltb_spec (status_code r) 600); [lia | reflexivity].
  - intros r -> [Hlo Hhi]. unfold is_http_error.
    destruct (Z.leb_spec 400 (status_code r)); [|lia].
    destruct (Z.ltb_spec (status_code r) 600); [reflexivity | lia].
  - intros ->. reflexivity.
  - intros station found w0 e Hsearch Hurl Hmiss Hraise.
    unfold on_button. rewrite Hsearch, Hurl.
    unfold download_csv_bytes. rewrite Hmiss.
    unfold download_csv_bytes_body, send. rewrite Hget.
    destruct rg as [r|]; cbn [fst] in Hraise |- *.
    + destruct (is_http_error (status_code r)); cbn [fst] in Hraise |- *;
        [injection Hraise as <-; reflexivity | discriminate].
    + injection Hraise as <-. reflexivity.
  - intros u w0 dh dg' Hhead Hfallback.
    rewrite (url_exists_body_unfold server u w0 Failed dh Failed dg' Hhead Hfallback).
    reflexivity.
Qed.

End Download.

(* ===================================================================== *)
(** * The caches                                                          *)
(* ===================================================================== *)

(** An entry answers for [CACHE_TTL] seconds from the time it is stored. *)
Lemma cache_lookup_fresh {V : Type} (c : cache V) key v stored dt :
  (dt < CACHE_TTL)%nat ->
  cache_lookup (<[key := (v, stored)]> c) key (stored + dt) = Some v.
Proof.
  intros Hdt. unfold cache_lookup. rewrite lookup_insert_eq.
  destruct (Nat.ltb_spec (stored + dt) (stored + CACHE_TTL)); [reflexivity | lia].
Qed.

Lemma cache_lookup_expired {V : Type} (c : cache V) key v stored dt :
  (CACHE_TTL <= dt)%nat ->
  cache_lookup (<[key := (v, stored)]> c) key (stored + dt) = None.
Proof.
  intros Hdt. unfold cache_lookup. rewrite lookup_insert_eq.
  destruct (Nat.ltb_spec (stored + dt) (stored + CACHE_TTL)); [lia | reflexivity].
Qed.

Section Caching.

Variable server : nat -> request -> reply * nat.
Variable utc_today : nat -> date.

(** C8: the answers of the existence check and of the download are
    stored by URL, and the result of a search by station, for 300 seconds
    from the time they are stored.  After a search that was run, a second
    search for the same station within that time returns the same result
    and issues no request; so do a repeated existence check and a repeated
    download of the same URL.  The clock does not go back during a search,
    so this covers a second search started less than 300 seconds after the
    first one started. *)
Theorem repeated_search_issues_no_request station url w dt :
  (dt < CACHE_TTL)%nat ->
  (cache_lookup (find_cache w) station (now w) = None ->
   forall r w1,
     find_latest_csv server utc_today station w = (Ok r, w1) ->
     (now w <= now w1)%nat /\
     find_cache w1 !! station = Some (r, now w1) /\
     find_latest_csv server utc_today station (elapse dt w1) = (Ok r, elapse dt w1) /\
     sent (snd (find_latest_csv server utc_today station (elapse dt w1))) = sent w1 /\
     cache_lookup (find_cache w1) station (now w1 + CACHE_TTL) = None)
  /\ (cache_lookup (exists_cache w) url (now w) = None ->
      forall b w1,
        url_exists server url w = (b, w1) ->
        exists_cache w1 !! url = Some (b, now w1) /\
        fst (url_exists server url (elapse dt w1)) = b /\
        sent (snd (url_exists server url (elapse dt w1))) = sent w1)
  /\ (cache_lookup (bytes_cache w) url (now w) = None ->
      forall b w1,
        download_csv_bytes server url w = (Ok b, w1) ->
        bytes_cache w1 !! url = Some (b, now w1) /\
        download_csv_bytes server url (elapse dt w1) = (Ok b, elapse dt w1) /\
        sent (snd (download_csv_bytes server url (elapse dt w1))) = sent w1).
Proof.
  intros Hdt. split; [|split].
  - intros Hmiss r w1 Hrun. unfold find_latest_csv in Hrun. rewrite Hmiss in Hrun.
    pose proof (scan_days_consistent server (utc_today (now w)) station day_offsets w)
      as [(_ & _ & Hclock) _]. cbv zeta in Hclock.
    unfold find_latest_csv_body in Hrun.
    destruct (scan_days server (utc_today (now w)) station day_offsets w)
      as [[r'|e] w']; [|discriminate].
    injection Hrun as <- <-. cbn [snd] in Hclock.
    split; [exact Hclock|].
    split; [cbn [set_find_cache find_cache now]; apply lookup_insert_eq|].
    assert (Hhit : find_latest_csv server utc_today station
                     (elapse dt (set_find_cache
                                   (<[station := (r', now w')]> (find_cache w')) w'))
                   = (Ok r', elapse dt (set_find_cache
                                   (<[station := (r', now w')]> (find_cache w')) w'))).
    { unfold find_latest_csv. cbn [elapse set_find_cache find_cache now].
      rewrite (cache_lookup_fresh _ station r' (now w') dt Hdt). reflexivity. }
    split; [exact Hhit|]. split; [rewrite Hhit; reflexivity|].
    cbn [set_find_cache find_cache now].
    apply cache_lookup_expired. lia.
  - intros Hmiss b w1 Hrun. unfold url_exists in Hrun. rewrite Hmiss in Hrun.
    destruct (url_exists_body server url w) as [b' w'].
    injection Hrun as <- <-.
    split; [cbn [log_probe set_exists_cache exists_cache now]; apply lookup_insert_eq|].
    unfold url_exists. cbn [elapse log_probe set_exists_cache exists_cache now].
    rewrite (cache_lookup_fresh _ url b' (now w') dt Hdt). split; reflexivity.
  - intros Hmiss b w1 Hrun. unfold download_csv_bytes in Hrun. rewrite Hmiss in Hrun.
    destruct (download_csv_bytes_body server url w) as [[b'|e] w']; [|discriminate].
    injection Hrun as <- <-.
    split; [cbn [set_bytes_cache bytes_cache now]; apply lookup_insert_eq|].
    unfold download_csv_bytes. cbn [elapse set_bytes_cache bytes_cache now].
    rewrite (cache_lookup_fresh _ url b' (now w') dt Hdt). split; reflexivity.
Qed.

End Caching.

(* ===================================================================== *)
(** * Concrete runs                                                       *)
(* ===================================================================== *)

(** Checks on a concrete probe log. *)
Lemma all_false_check (trace : list (string * bool)) :
  forallb (fun p => negb (snd p)) trace = true ->
  Forall (fun p => snd p = false) trace.
Proof.
  intros Hall. apply List.Forall_forall. intros p Hin.
  rewrite forallb_forall in Hall. specialize (Hall p Hin).
  destruct (snd p); [discriminate | reflexivity].
Qed.

Lemma only_confirmed_check (trace : list (string * bool)) (target : string) :
  forallb (fun p => Bool.eqb (snd p) (String.eqb (fst p) target)) trace = true ->
  forall u b, In (u, b) trace -> (b = true <-> u = target).
Proof.
  intros Hall u b Hin.
  rewrite forallb_forall in Hall. specialize (Hall (u, b) Hin). cbn [fst snd] in Hall.
  apply Bool.eqb_prop in Hall. subst b. apply String.eqb_eq.
Qed.

Lemma cold_consistent t : find_cache_consistent (cold t).
Proof.
  intros station found stored Hentry. cbn [cold find_cache] in Hentry.
  rewrite lookup_empty in Hentry. discriminate Hentry.
Qed.

Lemma scenario_today_valid : valid_date Scenario.today.
Proof. unfold valid_date, MINYEAR, MAXYEAR. cbn. lia. Qed.

(** With the network down every request of the search raises, every
    check answers false after a [HEAD] and a [GET], and the search goes
    through the whole space. *)
Example network_down_not_found :
  let run := find_latest_csv_body Scenario.down Scenario.clock "KXMR" (cold 0) in
  fst run = Ok None /\
  length (probed (snd run)) = 216%nat /\
  length (sent (snd run)) = 432%nat.
Proof. vm_compute. repeat split. Qed.

Lemma url_exists_head_then_get_witness :
  fst (url_exists_body (Scenario.verbs 405 200) Scenario.target (cold 0)) = true.
Proof.
  pose proof (url_exists_head_then_get (Scenario.verbs 405 200) Scenario.target (cold 0)
                (Responded (mkresponse 405 [])) 1%nat
                (Responded (mkresponse 200 [Byte.x61])) 1%nat eq_refl eq_refl) as H.
  cbv zeta in H. destruct H as (_ & _ & _ & _ & H).
  exact (H _ _ eq_refl eq_refl eq_refl eq_refl).
Defined.

Lemma url_exists_only_200_witness :
  fst (url_exists_body (Scenario.verbs 204 200) Scenario.target (cold 0)) = false.
Proof.
  pose proof (url_exists_only_200 (Scenario.verbs 204 200) Scenario.target (cold 0)
                (Responded (mkresponse 204 [])) 1%nat
                (Responded (mkresponse 200 [Byte.x61])) 1%nat eq_refl eq_refl) as H.
  cbv zeta in H. destruct H as (_ & H & _).
  apply (H _ eq_refl); [reflexivity | discriminate].
Defined.

Lemma find_latest_csv_priority_order_witness :
  exists trace,
    probed (snd (find_latest_csv_body Scenario.only_target Scenario.clock "KXMR" (cold 0)))
      = trace /\
    length trace = 107%nat /\
    fst (find_latest_csv_body Scenario.only_target Scenario.clock "KXMR" (cold 0))
      = Ok (Some (key_result "KXMR" (mkkey (mkdate 2024 2 29) 12 "NBM4.1"))).
Proof.
  destruct (find_latest_csv_priority_order Scenario.only_target Scenario.clock "KXMR"
              (cold 0) [mkdate 2024 3 1; mkdate 2024 2 29; mkdate 2024 2 28] eq_refl)
    as (_ & _ & _ & trace & Hp & _).
  exists trace. split; [exact Hp|].
  cbn [cold probed app] in Hp. subst trace.
  split; vm_compute; reflexivity.
Defined.

Lemma not_found_after_216_checks_witness :
  fst (on_button Scenario.nothing Scenario.clock Scenario.parse "KXMR" (cold 0))
    = NotFound "No CSV found for KXMR in the last 3 day(s). Try increasing DAYS_BACK.".
Proof.
  destruct (not_found_after_216_checks Scenario.nothing Scenario.clock Scenario.parse
              "KXMR" (cold 0) [mkdate 2024 3 1; mkdate 2024 2 29; mkdate 2024 2 28]
              eq_refl eq_refl)
    as (trace & Hp & _ & H).
  cbn [cold probed app] in Hp. subst trace.
  apply H. apply all_false_check. vm_compute. reflexivity.
Defined.

Lemma probes_inside_space_at_most_once_witness :
  exists keys rest trace,
    probed (snd (find_latest_csv_body Scenario.only_target Scenario.clock "KXMR" (cold 0)))
      = trace /\
    search_space [mkdate 2024 3 1; mkdate 2024 2 29; mkdate 2024 2 28] = keys ++ rest /\
    List.NoDup keys /\ List.NoDup (map fst trace).
Proof.
  destruct (probes_inside_space_at_most_once Scenario.only_target Scenario.clock "KXMR"
              (cold 0) [mkdate 2024 3 1; mkdate 2024 2 29; mkdate 2024 2 28]
              scenario_today_valid eq_refl)
    as (keys & rest & trace & Hp & _ & Hspace & Hkeys & Hurls & _).
  exists keys, rest, trace. auto.
Defined.

Lemma filename_of_found_witness :
  filename "KXMR" (key_result "KXMR" (mkkey (mkdate 2024 2 29) 12 "NBM4.1"))
    = "KXMR_2024022912_NBM4.1.csv".
Proof.
  destruct (filename_of_found Scenario.only_target Scenario.clock Scenario.parse "KXMR"
              (cold 0) [mkdate 2024 3 1; mkdate 2024 2 29; mkdate 2024 2 28]
              scenario_today_valid eq_refl eq_refl)
    as (_ & _ & H).
  destruct (H (mkdate 2024 2 29) eq_refl) as (trace & Hp & Hname).
  cbn [cold probed app] in Hp. subst trace.
  destruct Hname as [_ ->]; [|reflexivity].
  apply only_confirmed_check. vm_compute. reflexivity.
Defined.

Lemma found_url_matches_metadata_witness :
  find_cache_consistent
    (snd (on_button Scenario.only_target Scenario.clock Scenario.parse "KXMR" (cold 0))).
Proof.
  destruct (found_url_matches_metadata Scenario.only_target Scenario.clock Scenario.parse
              "KXMR" (cold 0) (cold_consistent 0))
    as (_ & H & _).
  exact H.
Defined.

Lemma download_csv_bytes_outcomes_witness :
  fst (download_csv_bytes_body (Scenario.always 404) Scenario.target (cold 0))
    = Raise (HTTPError 404).
Proof.
  pose proof (download_csv_bytes_outcomes (Scenario.always 404) Scenario.clock
                Scenario.parse Scenario.target (cold 0)
                (Responded (mkresponse 404 [])) 1%nat eq_refl) as H.
  cbv zeta in H. destruct H as (_ & _ & H & _).
  apply (H _ eq_refl). cbn. lia.
Defined.

Lemma repeated_search_issues_no_request_witness :
  sent (snd (find_latest_csv Scenario.only_target Scenario.clock "KXMR"
               (elapse 299 (snd (find_latest_csv Scenario.only_target Scenario.clock
                                   "KXMR" (cold 0))))))
  = sent (snd (find_latest_csv Scenario.only_target Scenario.clock "KXMR" (cold 0))).
Proof.
  destruct (repeated_search_issues_no_request Scenario.only_target Scenario.clock "KXMR"
              Scenario.target (cold 0) 299 ltac:(unfold CACHE_TTL; lia))
    as (H & _).
  pose proof (surjective_pairing
                (find_latest_csv Scenario.only_target Scenario.clock "KXMR" (cold 0)))
    as Hrun.
  assert (Hfst : fst (find_latest_csv Scenario.only_target Scenario.clock "KXMR" (cold 0))
                 = Ok (Some (key_result "KXMR" (mkkey (mkdate 2024 2 29) 12 "NBM4.1"))))
    by (vm_compute; reflexivity).
  rewrite Hfst in Hrun.
  destruct (H eq_refl _ _ Hrun) as (_ & _ & _ & Hsent & _).
  exact Hsent.
Defined.

(* ===================================================================== *)
(** * URLs of different runs                                              *)
(* ===================================================================== *)

Lemma listed_version_length ver :
  In ver NBM_VERSIONS_TO_TRY -> String.length ver = 6%nat.
Proof.
  unfold NBM_VERSIONS_TO_TRY. cbn [In].
  intros [<-|[<-|[<-|[]]]]; reflexivity.
Qed.

(** X1: two runs of listed versions have the same URL only when they are
    the same run of the same station. *)
Theorem build_url_never_shared y m d hh ver station y' m' d' hh' ver' station' :
  0 <= y <= 9999 -> 0 <= m <= 99 -> 0 <= d <= 99 -> 0 <= hh <= 99 ->
  0 <= y' <= 9999 -> 0 <= m' <= 99 -> 0 <= d' <= 99 -> 0 <= hh' <= 99 ->
  In ver NBM_VERSIONS_TO_TRY -> In ver' NBM_VERSIONS_TO_TRY ->
  build_url y m d hh ver station = build_url y' m' d' hh' ver' station' ->
  y = y' /\ m = m' /\ d = d' /\ hh = hh' /\ ver = ver' /\ station = station'.
Proof.
  intros Hy Hm Hd Hh Hy' Hm' Hd' Hh' Hver Hver' Heq.
  rewrite !build_url_digits in Heq by assumption.
  pose proof (listed_version_length ver Hver) as Lver.
  pose proof (listed_version_length ver' Hver') as Lver'.
  assert (Hlen : String.length station = String.length station').
  { apply (f_equal String.length) in Heq.
    rewrite !length_append, !length_digits4, !length_digits2 in Heq. lia. }
  split_append Heq. split_append Heq.
  split_append Heq. split_append Heq.
  split_append Heq. split_append Heq.
  split_append Heq. split_append Heq.
  apply append_inj_length in Heq; [|congruence]. destruct Heq as [Everr Heq].
  split_append Heq. split_append Heq. split_append Heq.
  apply append_inj_length in Heq; [|exact Hlen]. destruct Heq as [Est _].
  repeat split; try assumption;
    first [apply digits4_inj; assumption | apply digits2_inj; assumption].
Qed.

Lemma build_url_never_shared_witness :
  2024 = 2024 /\ 2 = 2 /\ 29 = 29 /\ 12 = 12 /\ "NBM4.1" = "NBM4.1" /\ "KXMR" = "KXMR".
Proof.
  exact (build_url_never_shared 2024 2 29 12 "NBM4.1" "KXMR"
           2024 2 29 12 "NBM4.1" "KXMR"
           ltac:(lia) ltac:(lia) ltac:(lia) ltac:(lia)
           ltac:(lia) ltac:(lia) ltac:(lia) ltac:(lia)
           ltac:(cbn; tauto) ltac:(cbn; tauto) eq_refl).
Defined.

(* ===================================================================== *)
(** * What a scan inherits from its existence checks                      *)
(* ===================================================================== *)

Section Closure.

Variable server : nat -> request -> reply * nat.

(** A relation between the worlds before and after at most [n] checks. *)
Variable R : nat -> World -> World -> Prop.
Hypothesis R_refl : forall w, R 0 w w.
Hypothesis R_step : forall url w, R 1 w (snd (url_exists server url w)).
Hypothesis R_trans :
  forall a b w1 w2 w3, R a w1 w2 -> R b w2 w3 -> R (a + b) w1 w3.
Hypothesis R_weaken :
  forall a b w w', (a <= b)%nat -> R a w w' -> R b w w'.

Lemma scan_versions_closed y m d hh station vers :
  forall w, R (length vers) w (snd (scan_versions server y m d hh station vers w)).
Proof.
  induction vers as [|ver rest IH]; intros w; cbn [scan_versions length].
  - apply R_refl.
  - pose proof (R_step (build_url y m d hh ver station) w) as Hstep.
    destruct (url_exists server _ w) as [b w1]. cbn [snd] in Hstep.
    destruct b; cbn [snd].
    + apply (R_weaken 1); [lia | exact Hstep].
    + exact (R_trans 1 (length rest) _ _ _ Hstep (IH w1)).
Qed.

Lemma scan_hours_closed y m d station hours :
  forall w, R (3 * length hours) w (snd (scan_hours server y m d station hours w)).
Proof.
  induction hours as [|hh rest IH]; intros w; cbn [scan_hours length].
  - apply R_refl.
  - pose proof (scan_versions_closed y m d hh station NBM_VERSIONS_TO_TRY w) as Hv.
    destruct (scan_versions server y m d hh station NBM_VERSIONS_TO_TRY w)
      as [[found|] w1]; cbn [snd] in *.
    + apply (R_weaken 3); [lia | exact Hv].
    + apply (R_weaken (3 + 3 * length rest)); [lia|].
      exact (R_trans 3 _ _ _ _ Hv (IH w1)).
Qed.

Lemma scan_days_closed today station offsets :
  forall w, R (72 * length offsets) w (snd (scan_days server today station offsets w)).
Proof.
  induction offsets as [|off rest IH]; intros w; cbn [scan_days length].
  - apply R_refl.
  - destruct (date_sub today off) as [dy|];
      [|apply (R_weaken 0); [lia | apply R_refl]].
    pose proof (scan_hours_closed (year dy) (month dy) (day dy) station HOURS_DESC w)
      as Hh. change (3 * length HOURS_DESC)%nat with 72%nat in Hh.
    destruct (scan_hours server _ _ _ station HOURS_DESC w)
      as [[found|] w1]; cbn [snd] in *.
    + apply (R_weaken 72); [lia | exact Hh].
    + apply (R_weaken (72 + 72 * length rest)); [lia|].
      exact (R_trans 72 _ _ _ _ Hh (IH w1)).
Qed.

End Closure.

(* ===================================================================== *)
(** * The requests and the time of a search                               *)
(* ===================================================================== *)

Lemma probe_of_app_l t1 t2 r : probe_of t1 r -> probe_of (t1 ++ t2) r.
Proof.
  intros (u & b & Hin & Hr). exists u, b. split; [|exact Hr].
  apply in_or_app. left. exact Hin.
Qed.

Lemma probe_of_app_r t1 t2 r : probe_of t2 r -> probe_of (t1 ++ t2) r.
Proof.
  intros (u & b & Hin & Hr). exists u, b. split; [|exact Hr].
  apply in_or_app. right. exact Hin.
Qed.

Lemma checks_cost_refl w : checks_cost 0 w w.
Proof.
  exists [], []. rewrite !app_nil_r. cbn. repeat split; try lia. constructor.
Qed.

Lemma checks_cost_trans a b w1 w2 w3 :
  checks_cost a w1 w2 -> checks_cost b w2 w3 -> checks_cost (a + b) w1 w3.
Proof.
  intros (t1 & r1 & Hp1 & Hs1 & Ht1 & Hr1 & Hall1 & Hf1 & Hb1)
         (t2 & r2 & Hp2 & Hs2 & Ht2 & Hr2 & Hall2 & Hf2 & Hb2).
  exists (t1 ++ t2), (r1 ++ r2).
  rewrite Hp2, Hp1, Hs2, Hs1, <- !app_assoc, !length_app.
  repeat split; try lia; try congruence.
  apply List.Forall_app. split.
  - eapply List.Forall_impl; [|exact Hall1]. intros r. apply probe_of_app_l.
  - eapply List.Forall_impl; [|exact Hall2]. intros r. apply probe_of_app_r.
Qed.

Lemma checks_cost_weaken a b w w' :
  (a <= b)%nat -> checks_cost a w w' -> checks_cost b w w'.
Proof.
  intros Hab (t & r & Hp & Hs & Ht & Hr & Hall & Hf & Hb).
  exists t, r. repeat split; try assumption. lia.
Qed.

Section Cost.

Variable server : nat -> request -> reply * nat.
Variable utc_today : nat -> date.

(** One check on the network: a [HEAD], and after it at most one [GET]. *)
Lemma url_exists_body_sent url w :
  let w1 := snd (url_exists_body server url w) in
  (sent w1 = sent w ++ [head_request url] \/
   sent w1 = sent w ++ [head_request url; get_stream_request url]) /\
  probed w1 = probed w /\ find_cache w1 = find_cache w /\
  bytes_cache w1 = bytes_cache w.
Proof.
  destruct (server (now w) (head_request url)) as [rh dh] eqn:Hhead.
  destruct (server (now w + dh)%nat (get_stream_request url)) as [rg dg] eqn:Hget.
  cbv zeta. rewrite (url_exists_body_unfold server url w rh dh rg dg Hhead Hget).
  destruct rh as [r|]; [destruct (status_code r =? 200); [|destruct (_ || _)]|];
    cbn [snd sent probed find_cache bytes_cache]; rewrite <- ?app_assoc; auto.
Qed.

Lemma checks_cost_step url w : checks_cost 1 w (snd (url_exists server url w)).
Proof.
  unfold url_exists.
  destruct (cache_lookup (exists_cache w) url (now w)) as [b|].
  - exists [(url, b)], []. cbn. rewrite app_nil_r.
    repeat split; try lia. constructor.
  - pose proof (url_exists_body_sent url w) as (Hsent & Hp & Hf & Hb).
    cbv zeta in *.
    destruct (url_exists_body server url w) as [b w1]. cbn [snd] in *.
    assert (Hhead : probe_of [(url, b)] (head_request url)).
    { exists url, b. split; [left; reflexivity | left; reflexivity]. }
    assert (Hget : probe_of [(url, b)] (get_stream_request url)).
    { exists url, b. split; [left; reflexivity | right; reflexivity]. }
    destruct Hsent as [Hsent | Hsent];
      [exists [(url, b)], [head_request url]
      | exists [(url, b)], [head_request url; get_stream_request url]];
      cbn [log_probe set_exists_cache probed sent find_cache bytes_cache length];
      rewrite Hp; repeat split; try assumption; try lia;
      repeat (constructor; try assumption).
Qed.

Lemma find_latest_csv_body_cost station w :
  checks_cost 216 w (snd (find_latest_csv_body server utc_today station w)).
Proof.
  unfold find_latest_csv_body.
  exact (scan_days_closed server checks_cost checks_cost_refl checks_cost_step
           checks_cost_trans checks_cost_weaken (utc_today (now w)) station
           day_offsets w).
Qed.

(** X2: a search logs at most 216 probes and sends at most two requests
    per probe, so at most 432; every request is the [HEAD] or the
    streaming [GET] of a URL it probes, with the 20 second timeout and
    redirects followed, and none is the download request; the search
    leaves the result store and the download store as they were. *)
Theorem search_sends_only_probe_requests station w :
  let run := find_latest_csv_body server utc_today station w in
  exists trace reqs,
    probed (snd run) = probed w ++ trace /\
    sent (snd run) = sent w ++ reqs /\
    (length trace <= 216)%nat /\
    (length reqs <= 2 * length trace)%nat /\
    (length reqs <= 432)%nat /\
    Forall (fun r =>
              probe_of trace r /\
              req_timeout r = 20 /\ req_allow_redirects r = true /\
              r <> get_request (req_url r)) reqs /\
    find_cache (snd run) = find_cache w /\
    bytes_cache (snd run) = bytes_cache w.
Proof.
  intros run.
  destruct (find_latest_csv_body_cost station w)
    as (trace & reqs & Hp & Hs & Ht & Hr & Hall & Hf & Hb).
  fold run in Hp, Hs, Hf, Hb.
  exists trace, reqs. repeat split; try assumption; try lia.
  eapply List.Forall_impl; [|exact Hall].
  intros r Hprobe. split; [exact Hprobe|].
  destruct Hprobe as (u & b & _ & [-> | ->]); repeat split; discriminate.
Qed.

End Cost.

Lemma checks_time_refl limit w : checks_time limit 0 w w.
Proof. unfold checks_time. lia. Qed.

Lemma checks_time_trans limit a b w1 w2 w3 :
  checks_time limit a w1 w2 -> checks_time limit b w2 w3 ->
  checks_time limit (a + b) w1 w3.
Proof. unfold checks_time. intros (A1 & B1 & C1) (A2 & B2 & C2). lia. Qed.

Lemma checks_time_weaken limit a b w w' :
  (a <= b)%nat -> checks_time limit a w w' -> checks_time limit b w w'.
Proof. intros _ H. exact H. Qed.

Section Time.

Variable server : nat -> request -> reply * nat.
Variable utc_today : nat -> date.

(** No request takes more than [limit] seconds. *)
Variable limit : nat.
Hypothesis server_in_time : forall t r, (snd (server t r) <= limit)%nat.

Lemma checks_time_step url w :
  checks_time limit 1 w (snd (url_exists server url w)).
Proof.
  unfold url_exists.
  destruct (cache_lookup (exists_cache w) url (now w)) as [b|];
    [unfold checks_time; cbn; lia|].
  destruct (server (now w) (head_request url)) as [rh dh] eqn:Hhead.
  destruct (server (now w + dh)%nat (get_stream_request url)) as [rg dg] eqn:Hget.
  pose proof (server_in_time (now w) (head_request url)) as Lh.
  pose proof (server_in_time (now w + dh)%nat (get_stream_request url)) as Lg.
  rewrite Hhead in Lh. rewrite Hget in Lg. cbn [snd] in Lh, Lg.
  rewrite (url_exists_body_unfold server url w rh dh rg dg Hhead Hget).
  unfold checks_time.
  destruct rh as [r|]; [destruct (status_code r =? 200); [|destruct (_ || _)]|];
    cbn [snd log_probe set_exists_cache now sent]; rewrite !length_app;
    cbn [length]; nia.
Qed.

Lemma find_latest_csv_body_time station w :
  checks_time limit 216 w (snd (find_latest_csv_body server utc_today station w)).
Proof.
  unfold find_latest_csv_body.
  exact (scan_days_closed server (checks_time limit) (checks_time_refl limit)
           checks_time_step (checks_time_trans limit) (checks_time_weaken limit)
           (utc_today (now w)) station day_offsets w).
Qed.

(** X3: when no request takes more than [limit] seconds, an existence
    check takes at most twice that, and a search at most 432 times that:
    two requests for each of the 216 keys. *)
Theorem search_time_is_bounded station url w :
  let run := find_latest_csv_body server utc_today station w in
  (now w <= now (snd (url_exists server url w)) <= now w + 2 * limit)%nat /\
  (now w <= now (snd run) <= now w + 432 * limit)%nat.
Proof.
  intros run. split.
  - destruct (checks_time_step url w) as (A & B & C).
    destruct (checks_cost_step server url w)
      as (trace & reqs & _ & Hs & Ht & Hr & _).
    rewrite Hs, length_app in C. nia.
  - destruct (find_latest_csv_body_time station w) as (A & B & C).
    destruct (find_latest_csv_body_cost server utc_today station w)
      as (trace & reqs & _ & Hs & Ht & Hr & _).
    fold run in A, B, C, Hs. rewrite Hs, length_app in C. nia.
Qed.

End Time.

(* ===================================================================== *)
(** * What a returned URL rests on                                        *)
(* ===================================================================== *)

Lemma checks_sound_refl server w : checks_sound server 0 w w.
Proof.
  intros Hj. split; [exact Hj|]. split; [lia|].
  exists []. rewrite app_nil_r. split; [reflexivity|]. intros u [].
Qed.

Lemma checks_sound_trans server a b w1 w2 w3 :
  checks_sound server a w1 w2 -> checks_sound server b w2 w3 ->
  checks_sound server (a + b) w1 w3.
Proof.
  intros H12 H23 Hj1.
  destruct (H12 Hj1) as (Hj2 & Hc1 & t1 & Hp1 & Hok1).
  destruct (H23 Hj2) as (Hj3 & Hc2 & t2 & Hp2 & Hok2).
  split; [exact Hj3|]. split; [lia|].
  exists (t1 ++ t2). split; [rewrite Hp2, Hp1, app_assoc; reflexivity|].
  intros u Hin. apply in_app_or in Hin as [Hin | Hin].
  - destruct (Hok1 u Hin) as (t & Ht & Hans). exists t. split; [lia | exact Hans].
  - exact (Hok2 u Hin).
Qed.

Lemma checks_sound_weaken server a b w w' :
  (a <= b)%nat -> checks_sound server a w w' -> checks_sound server b w w'.
Proof. intros _ H. exact H. Qed.

Section Soundness.

Variable server : nat -> request -> reply * nat.
Variable utc_today : nat -> date.

(** A check on the network answers true only on a 200 it received. *)
Lemma url_exists_body_true url w :
  let run := url_exists_body server url w in
  exists_cache (snd run) = exists_cache w /\
  (now w <= now (snd run))%nat /\
  (fst run = true ->
   exists t, (t <= now (snd run))%nat /\ answered_200 server url t).
Proof.
  destruct (server (now w) (head_request url)) as [rh dh] eqn:Hhead.
  destruct (server (now w + dh)%nat (get_stream_request url)) as [rg dg] eqn:Hget.
  cbv zeta. rewrite (url_exists_body_unfold server url w rh dh rg dg Hhead Hget).
  assert (Hfallback :
            match rg with Responded r => status_code r =? 200 | Failed => false end = true ->
            exists t, (t <= now w + dh + dg)%nat /\ answered_200 server url t).
  { destruct rg as [r|]; [|discriminate]. intros E. apply Z.eqb_eq in E.
    exists (now w + dh)%nat. split; [lia|]. exists r, dg. split; [right; exact Hget | exact E]. }
  destruct rh as [r|].
  - destruct (Z.eqb_spec (status_code r) 200) as [E|_].
    + cbn [fst snd exists_cache now]. split; [reflexivity|]. split; [lia|].
      intros _. exists (now w). split; [lia|].
      exists r, dh. split; [left; exact Hhead | exact E].
    + destruct (_ || _); cbn [fst snd exists_cache now].
      * split; [reflexivity|]. split; [lia | exact Hfallback].
      * split; [reflexivity|]. split; [lia | discriminate].
  - cbn [fst snd exists_cache now]. split; [reflexivity|]. split; [lia | exact Hfallback].
Qed.

Lemma checks_sound_step url w :
  checks_sound server 1 w (snd (url_exists server url w)).
Proof.
  intros Hj. unfold url_exists.
  destruct (cache_lookup (exists_cache w) url (now w)) as [b|] eqn:Hlook.
  - cbn [snd]. split; [exact Hj|]. split; [cbn; lia|].
    exists [(url, b)]. split; [reflexivity|].
    intros u [Heq | []]. injection Heq as <- ->.
    unfold cache_lookup in Hlook.
    destruct (exists_cache w !! url) as [[v stored]|] eqn:Hentry; [|discriminate].
    destruct (now w <? stored + CACHE_TTL)%nat; [|discriminate].
    injection Hlook as ->.
    destruct (Hj url stored Hentry) as (Hstored & t & Ht & Hans).
    exists t. split; [cbn; lia | exact Hans].
  - pose proof (url_exists_body_true url w) as (Hstore & Hclock & Htrue).
    pose proof (url_exists_body_frame server url w) as [Hprobed _].
    cbv zeta in *.
    destruct (url_exists_body server url w) as [b w1]. cbn [fst snd] in *.
    split; [|split; [cbn; exact Hclock|]].
    + intros u stored. cbn [log_probe set_exists_cache exists_cache now].
      destruct (decide (url = u)) as [<-|Hne].
      * rewrite lookup_insert_eq. intros Heq. injection Heq as -> <-.
        split; [lia|]. destruct (Htrue eq_refl) as (t & Ht & Hans).
        exists t. split; [exact Ht | exact Hans].
      * rewrite lookup_insert_ne by exact Hne. rewrite Hstore. intros Hentry.
        destruct (Hj u stored Hentry) as (Hstored & Hrest).
        split; [lia | exact Hrest].
    + exists [(url, b)].
      split; [cbn [log_probe set_exists_cache probed]; rewrite Hprobed; reflexivity|].
      intros u [Heq | []]. injection Heq as <- ->.
      destruct (Htrue eq_refl) as (t & Ht & Hans).
      exists t. split; [cbn; exact Ht | exact Hans].
Qed.

(** The result of a scan was logged as a positive answer. *)
Lemma scan_days_hit today station offsets :
  forall w found,
  fst (scan_days server today station offsets w) = Ok (Some found) ->
  exists trace,
    probed (snd (scan_days server today station offsets w)) = probed w ++ trace /\
    In (res_url found, true) trace.
Proof.
  induction offsets as [|off rest IH]; intros w found; cbn [scan_days];
    [discriminate|].
  destruct (date_sub today off) as [dy|]; [|discriminate].
  destruct (scan_hours_outcome server dy station HOURS_DESC w)
    as (t1 & Hp & _ & Hout). cbv zeta in *.
  destruct (scan_hours server _ _ _ station HOURS_DESC w)
    as [[found'|] w1]; cbn [fst snd] in *.
  - intros Heq. injection Heq as <-.
    destruct Hout as (pre & k & post & _ & -> & ->).
    exists (map (miss station) pre ++ [hit station k]). split; [exact Hp|].
    apply in_or_app. right. left. reflexivity.
  - intros Hrun. destruct (IH w1 found Hrun) as (t2 & Hp2 & Hin).
    exists (t1 ++ t2). split; [rewrite Hp2, Hp, app_assoc; reflexivity|].
    apply in_or_app. right. exact Hin.
Qed.

(** X4: a search returns a URL only after the server has answered 200 to
    its [HEAD] or to its streaming [GET], during the search or, for an
    answer taken from the existence store, before that answer was stored;
    provided the positive answers already in the store came from such a
    200, which the search keeps true. *)
Theorem returned_url_was_answered_200 station w found :
  store_justified server w ->
  let run := find_latest_csv_body server utc_today station w in
  fst run = Ok (Some found) ->
  store_justified server (snd run) /\
  exists t, (t <= now (snd run))%nat /\ answered_200 server (res_url found) t.
Proof.
  intros Hj run Hfound.
  pose proof (scan_days_closed server (checks_sound server) (checks_sound_refl server)
                checks_sound_step (checks_sound_trans server)
                (checks_sound_weaken server) (utc_today (now w)) station
                day_offsets w Hj) as (Hj' & _ & trace & Hp & Hok).
  destruct (scan_days_hit (utc_today (now w)) station day_offsets w found Hfound)
    as (trace' & Hp' & Hin).
  fold (find_latest_csv_body server utc_today station w) in Hj', Hp, Hok, Hp'.
  fold run in Hj', Hp, Hok, Hp'.
  split; [exact Hj'|].
  rewrite Hp in Hp'. apply app_inv_head in Hp'. subst trace'.
  exact (Hok _ Hin).
Qed.

End Soundness.

(* ===================================================================== *)
(** * Failures, retries and repeated presses                              *)
(* ===================================================================== *)

(** An entry that no longer answers does not answer later. *)
Lemma cache_lookup_later {V : Type} (c : cache V) key t t' :
  cache_lookup c key t = None -> (t <= t')%nat -> cache_lookup c key t' = None.
Proof.
  unfold cache_lookup. intros Hmiss Hle.
  destruct (c !! key) as [[v stored]|]; [|reflexivity].
  destruct (Nat.ltb_spec t (stored + CACHE_TTL)); [discriminate|].
  destruct (Nat.ltb_spec t' (stored + CACHE_TTL)); [lia | reflexivity].
Qed.

Section Presses.

Variable server : nat -> request -> reply * nat.
Variable utc_today : nat -> date.
Variable read_csv : bytes -> result (nat * nat).

(** One download on the network: one request, nothing stored. *)
Lemma download_csv_bytes_body_run url w :
  let run := download_csv_bytes_body server url w in
  sent (snd run) = sent w ++ [get_request url] /\
  (now w <= now (snd run))%nat /\
  bytes_cache (snd run) = bytes_cache w /\
  find_cache (snd run) = find_cache w /\
  exists_cache (snd run) = exists_cache w /\
  probed (snd run) = probed w /\
  (forall e, fst run = Raise e ->
     e = RequestException \/
     exists status, e = HTTPError status /\ 400 <= status < 600).
Proof.
  unfold download_csv_bytes_body, send.
  destruct (server (now w) (get_request url)) as [[r|] dt].
  - unfold is_http_error.
    destruct (Z.leb_spec 400 (status_code r));
      [destruct (Z.ltb_spec (status_code r) 600)|];
      cbn; repeat split; try lia; try discriminate.
    intros e Heq. injection Heq as <-. right. exists (status_code r).
    split; [reflexivity | lia].
  - cbn. repeat split; try lia. intros e Heq. injection Heq as <-. left. reflexivity.
Qed.

(** X5: a download that fails stores nothing: it has sent its one
    request, the failure is a transport error or a 4xx/5xx status, and
    every later call for the same URL asks the server again. *)
Theorem failed_download_is_asked_again url w e w1 :
  download_csv_bytes server url w = (Raise e, w1) ->
  bytes_cache w1 = bytes_cache w /\
  sent w1 = sent w ++ [get_request url] /\
  (e = RequestException \/ exists status, e = HTTPError status /\ 400 <= status < 600) /\
  forall dt,
    sent (snd (download_csv_bytes server url (elapse dt w1)))
    = sent w1 ++ [get_request url].
Proof.
  unfold download_csv_bytes at 1. intros Hrun.
  destruct (cache_lookup (bytes_cache w) url (now w)) eqn:Hmiss; [discriminate|].
  pose proof (download_csv_bytes_body_run url w)
    as (Hsent & Hclock & Hbytes & _ & _ & _ & Hexn). cbv zeta in *.
  destruct (download_csv_bytes_body server url w) as [[b|e'] w'];
    [discriminate|]. injection Hrun as -> ->. cbn [fst snd] in *.
  split; [exact Hbytes|]. split; [exact Hsent|]. split; [exact (Hexn e eq_refl)|].
  intros dt. unfold download_csv_bytes.
  cbn [elapse bytes_cache now]. rewrite Hbytes.
  rewrite (cache_lookup_later _ url (now w) (now w1 + dt) Hmiss) by lia.
  pose proof (download_csv_bytes_body_run url (elapse dt w1)) as (Hsent' & _).
  cbv zeta in Hsent'.
  destruct (download_csv_bytes_body server url (elapse dt w1)) as [[b|e'] w'];
    cbn [snd set_bytes_cache sent] in *; exact Hsent'.
Qed.

(** A search that is run stores its result at the time it returns. *)
Lemma find_latest_csv_stored station w r w1 :
  cache_lookup (find_cache w) station (now w) = None ->
  find_latest_csv server utc_today station w = (Ok r, w1) ->
  find_cache w1 !! station = Some (r, now w1) /\
  bytes_cache w1 = bytes_cache w /\ (now w <= now w1)%nat.
Proof.
  intros Hmiss Hrun. unfold find_latest_csv in Hrun. rewrite Hmiss in Hrun.
  pose proof (scan_days_consistent server (utc_today (now w)) station day_offsets w)
    as [(_ & Hbytes & Hclock) _]. cbv zeta in *.
  unfold find_latest_csv_body in Hrun.
  destruct (scan_days server (utc_today (now w)) station day_offsets w)
    as [[r'|e] w']; [|discriminate].
  injection Hrun as <- <-. cbn [snd set_find_cache find_cache bytes_cache now] in *.
  split; [apply lookup_insert_eq|]. split; assumption.
Qed.

(** X6: after a press that did not fail, in a process that had
    downloaded nothing and had no live result for the station, a second
    press for the station shows the same page and sends no request,
    however the server and the date have changed, as long as it comes
    less than 300 seconds after the search of the first press returned. *)
Theorem second_press_shows_the_same_page station w dt :
  cache_lookup (find_cache w) station (now w) = None ->
  (forall u, bytes_cache w !! u = None) ->
  let search := find_latest_csv server utc_today station w in
  let press := on_button server utc_today read_csv station w in
  (forall e, fst press <> Uncaught e) ->
  (now (snd press) + dt < now (snd search) + CACHE_TTL)%nat ->
  on_button server utc_today read_csv station (elapse dt (snd press))
  = (fst press, elapse dt (snd press)).
Proof.
  intros Hmiss Hfresh search press Hok Hsoon.
  subst press. unfold on_button in *. fold search in Hok, Hsoon |- *.
  destruct search as [res w1] eqn:Hsearch. cbn [fst snd] in *.
  destruct res as [r|e]; [|destruct (Hok e); reflexivity].
  destruct (find_latest_csv_stored station w r w1 Hmiss Hsearch)
    as (Hstored & Hbytes & Hclock).
  destruct r as [found|].
  - assert (Hdl_miss : cache_lookup (bytes_cache w1) (res_url found) (now w1) = None).
    { unfold cache_lookup. rewrite Hbytes, Hfresh. reflexivity. }
    destruct (download_csv_bytes server (res_url found) w1) as [dl w2] eqn:Hdl.
    cbn [fst snd] in *.
    destruct dl as [b|e]; [|destruct (Hok e); reflexivity].
    unfold download_csv_bytes in Hdl. rewrite Hdl_miss in Hdl.
    pose proof (download_csv_bytes_body_run (res_url found) w1)
      as (_ & Hclock2 & _ & Hfind2 & _). cbv zeta in *.
    destruct (download_csv_bytes_body server (res_url found) w1) as [[b'|e] w2'];
      [|discriminate]. injection Hdl as -> <-. cbn [fst snd] in *.
    destruct (read_csv b) as [shape|e] eqn:Hparse; cbn [fst snd] in *;
      [|destruct (Hok e); reflexivity].
    cbn [set_bytes_cache now] in Hsoon.
    unfold find_latest_csv.
    cbn [elapse set_bytes_cache find_cache now]. rewrite Hfind2.
    unfold cache_lookup at 1. rewrite Hstored.
    destruct (Nat.ltb_spec (now w2' + dt) (now w1 + CACHE_TTL)); [|lia].
    unfold download_csv_bytes. cbn [elapse set_bytes_cache bytes_cache now].
    rewrite (cache_lookup_fresh _ (res_url found) b (now w2') dt) by lia.
    rewrite Hparse. reflexivity.
  - cbn [fst snd] in *. unfold find_latest_csv. cbn [elapse find_cache now].
    unfold cache_lookup. rewrite Hstored.
    destruct (Nat.ltb_spec (now w1 + dt) (now w1 + CACHE_TTL)); [reflexivity | lia].
Qed.

End Presses.

(* ===================================================================== *)
(** * What the page can show                                              *)
(* ===================================================================== *)

Section Page.

Variable server : nat -> request -> reply * nat.
Variable utc_today : nat -> date.
Variable read_csv : bytes -> result (nat * nat).

Lemma find_latest_csv_returns station w :
  valid_date (utc_today (now w)) -> 2 <= year (utc_today (now w)) ->
  exists r, fst (find_latest_csv server utc_today station w) = Ok r.
Proof.
  intros Hv Hy. unfold find_latest_csv.
  destruct (cache_lookup (find_cache w) station (now w)) as [cached|];
    [exists cached; reflexivity|].
  destruct (search_dates_defined _ Hv Hy) as (days & Hdays).
  destruct (find_latest_csv_body_outcome server utc_today station w days Hdays)
    as (r & _ & Hr & _). cbv zeta in Hr.
  destruct (find_latest_csv_body server utc_today station w) as [res w1].
  cbn [fst] in Hr. subst res. exists r. reflexivity.
Qed.

(** X7: on a host whose clock is past year 1 the search returns, whatever
    the server does; when the page fails with an exception, the search had
    found a result and the exception is that of its download or of the
    parsing of the downloaded bytes. *)
Theorem page_fails_only_after_the_search station w :
  valid_date (utc_today (now w)) -> 2 <= year (utc_today (now w)) ->
  let search := find_latest_csv server utc_today station w in
  let press := on_button server utc_today read_csv station w in
  (exists r, fst search = Ok r) /\
  (forall e, fst press = Uncaught e ->
     exists found,
       fst search = Ok (Some found) /\
       (fst (download_csv_bytes server (res_url found) (snd search)) = Raise e \/
        exists b,
          fst (download_csv_bytes server (res_url found) (snd search)) = Ok b /\
          read_csv b = Raise e)).
Proof.
  intros Hv Hy search press.
  destruct (find_latest_csv_returns station w Hv Hy) as (r & Hr). fold search in Hr.
  split; [exists r; exact Hr|].
  intros e. subst press. unfold on_button. fold search.
  destruct search as [res w1]. cbn [fst snd] in *. subst res.
  destruct r as [found|]; [|discriminate].
  destruct (download_csv_bytes server (res_url found) w1) as [[b|e'] w2] eqn:Hdl;
    cbn [fst].
  - destruct (read_csv b) as [shape|e'] eqn:Hparse; cbn [fst]; [discriminate|].
    intros Heq. injection Heq as ->. exists found. split; [reflexivity|].
    rewrite Hdl. right. exists b. split; [reflexivity | exact Hparse].
  - intros Heq. injection Heq as ->. exists found. split; [reflexivity|].
    rewrite Hdl. left. reflexivity.
Qed.

(** X8: the metadata of a result is a run of the window: a calendar date
    at most [DAYS_BACK - 1] days before today, an hour from 0 to 23 and a
    listed version; its URL follows the template with fields of 4, 2, 2
    and 2 digits, and the message of the page reads
    [Found latest: YYYY-MM-DD HHZ (version)]. *)
Theorem found_metadata_is_a_run station w found :
  valid_date (utc_today (now w)) -> 2 <= year (utc_today (now w)) ->
  fst (find_latest_csv_body server utc_today station w) = Ok (Some found) ->
  valid_date (mkdate (res_year found) (res_month found) (res_day found)) /\
  (exists off, (off < DAYS_BACK)%nat /\
     date_sub (utc_today (now w)) off
     = Some (mkdate (res_year found) (res_month found) (res_day found))) /\
  0 <= res_hour found <= 23 /\
  In (res_version found) NBM_VERSIONS_TO_TRY /\
  fits_template (res_version found) station (res_url found) /\
  success_message found =
    "Found latest: " +:+ digits4 (res_year found) +:+ "-"
      +:+ digits2 (res_month found) +:+ "-" +:+ digits2 (res_day found) +:+ " "
      +:+ digits2 (res_hour found) +:+ "Z (" +:+ res_version found +:+ ")".
Proof.
  intros Hv Hy Hrun.
  destruct (search_dates_defined _ Hv Hy) as (days & Hdays).
  destruct (find_latest_csv_body_probes server utc_today station w days Hdays)
    as (m & trace & r & Hm & Hr & _ & _ & Hcases).
  rewrite Hr in Hrun. injection Hrun as ->.
  destruct Hcases as [[Habs _] | (i & -> & Hsome & _)]; [discriminate|].
  injection Hsome as ->.
  assert (Hi : (i < 216)%nat) by lia.
  destruct (key_at_space _ days i Hdays Hi) as ((off & Hoff & Hdate) & Hhour & Hver).
  destruct (key_at_in_range _ days i Hv Hdays Hi) as (Ry & Rm & Rd & Rh).
  pose proof (search_dates_valid _ days Hv Hdays) as Hall.
  rewrite List.Forall_forall in Hall.
  destruct (rank_bounds i Hi) as (Di & _ & _).
  assert (Hin : In (k_date (key_at days i)) days).
  { cbn [key_at k_date]. apply nth_In.
    rewrite (search_dates_length _ days Hdays). exact Di. }
  cbn [key_result res_year res_month res_day res_hour res_version res_url].
  assert (Hsame : mkdate (year (k_date (key_at days i))) (month (k_date (key_at days i)))
                         (day (k_date (key_at days i))) = k_date (key_at days i))
    by (destruct (k_date (key_at days i)); reflexivity).
  rewrite Hsame.
  split; [exact (Hall _ Hin)|].
  split; [exists off; split; assumption|].
  split; [exact Hhour|]. split; [exact Hver|].
  split.
  - exists (digits4 (year (k_date (key_at days i)))),
      (digits2 (month (k_date (key_at days i)))),
      (digits2 (day (k_date (key_at days i)))),
      (digits2 (k_hour (key_at days i))).
    rewrite digits4_all_digits, !digits2_all_digits by assumption.
    repeat split. unfold key_url. apply build_url_digits; assumption.
  - unfold success_message.
    cbn [key_result res_year res_month res_day res_hour res_version].
    rewrite (format_0d_4 _ Ry), (format_0d_2 _ Rm), (format_0d_2 _ Rd),
      (format_0d_2 _ Rh).
    reflexivity.
Qed.

Lemma find_latest_csv_sent station w :
  exists reqs,
    sent (snd (find_latest_csv server utc_today station w)) = sent w ++ reqs /\
    (length reqs <= 432)%nat.
Proof.
  unfold find_latest_csv.
  destruct (cache_lookup (find_cache w) station (now w)) as [cached|].
  - exists []. rewrite app_nil_r. split; [reflexivity | cbn; lia].
  - destruct (find_latest_csv_body_cost server utc_today station w)
      as (trace & reqs & _ & Hs & Ht & Hr & _).
    exists reqs. split; [|lia].
    destruct (find_latest_csv_body server utc_today station w) as [[r|e] w1];
      exact Hs.
Qed.

(** X9: a press sends, after the at most 432 requests of its search, at
    most one more request, and that one is the download of the URL the
    search returned; a press that shows the not-found message downloads
    nothing. *)
Theorem press_downloads_only_the_found_url station w :
  let search := find_latest_csv server utc_today station w in
  let press := on_button server utc_today read_csv station w in
  exists reqs dl,
    sent (snd search) = sent w ++ reqs /\
    sent (snd press) = sent w ++ reqs ++ dl /\
    (length reqs <= 432)%nat /\
    (dl = [] \/
     exists found, fst search = Ok (Some found) /\ dl = [get_request (res_url found)]) /\
    (forall message, fst press = NotFound message -> dl = []).
Proof.
  intros search press.
  destruct (find_latest_csv_sent station w) as (reqs & Hs & Hlen). fold search in Hs.
  subst press. unfold on_button. fold search.
  destruct search as [[[found|]|e] w1]; cbn [fst snd] in *.
  - unfold download_csv_bytes.
    destruct (cache_lookup (bytes_cache w1) (res_url found) (now w1)) as [b|].
    + exists reqs, []. rewrite app_nil_r.
      destruct (read_csv b); cbn [fst snd]; repeat split; auto; discriminate.
    + pose proof (download_csv_bytes_body_run server (res_url found) w1)
        as (Hsent & _). cbv zeta in Hsent.
      exists reqs, [get_request (res_url found)].
      destruct (download_csv_bytes_body server (res_url found) w1) as [[b|e] w2];
        cbn [fst snd set_bytes_cache sent] in *;
        [destruct (read_csv b); cbn [fst snd set_bytes_cache sent]|];
        (split; [exact Hs|]);
        (split; [rewrite Hsent, Hs, app_assoc; reflexivity|]);
        (split; [exact Hlen|]);
        (split; [right; exists found; split; reflexivity | discriminate]).
  - exists reqs, []. rewrite app_nil_r. repeat split; auto.
  - exists reqs, []. rewrite app_nil_r. repeat split; auto.
Qed.

End Page.

(* ===================================================================== *)
(** * What "not found" rests on                                           *)
(* ===================================================================== *)

Lemma checks_ask_refl w : checks_ask 0 w w.
Proof.
  exists [], []. rewrite !app_nil_r. repeat split; auto.
Qed.

Lemma checks_ask_weaken a b w w' :
  (a <= b)%nat -> checks_ask a w w' -> checks_ask b w w'.
Proof. intros _ H. exact H. Qed.

Lemma checks_ask_trans a b w1 w2 w3 :
  checks_ask a w1 w2 -> checks_ask b w2 w3 -> checks_ask (a + b) w1 w3.
Proof.
  intros (t1 & r1 & Hp1 & Hs1 & Hdom1 & Hask1) (t2 & r2 & Hp2 & Hs2 & Hdom2 & Hask2).
  exists (t1 ++ t2), (r1 ++ r2).
  split; [rewrite Hp2, Hp1, app_assoc; reflexivity|].
  split; [rewrite Hs2, Hs1, app_assoc; reflexivity|].
  split.
  - intros u Hin. rewrite map_app.
    destruct (Hdom2 u Hin) as [Hin2 | Hin2];
      [|right; apply in_or_app; right; exact Hin2].
    destruct (Hdom1 u Hin2) as [Hin1 | Hin1];
      [left; exact Hin1 | right; apply in_or_app; left; exact Hin1].
  - rewrite map_app. intros Hnd Hnew u Hin.
    apply NoDup_app_remove_l in Hnd as Hnd2.
    apply NoDup_app_remove_r in Hnd as Hnd1.
    apply in_or_app. apply in_app_or in Hin as [Hin | Hin].
    + left. apply Hask1; [exact Hnd1 | | exact Hin].
      intros v Hv. apply Hnew. apply in_or_app. left. exact Hv.
    + right. apply Hask2; [exact Hnd2 | | exact Hin].
      intros v Hv.
      destruct (exists_cache w2 !! v) as [entry|] eqn:Hentry; [|reflexivity].
      exfalso.
      destruct (Hdom1 v ltac:(rewrite Hentry; discriminate)) as [Hold | Hprobed].
      * apply Hold. apply Hnew. apply in_or_app. right. exact Hv.
      * revert Hprobed Hv. clear -Hnd.
        induction (map fst t1) as [|x l IH]; [intros []|].
        cbn [app] in Hnd. inversion Hnd as [|? ? Hnotin Hnd']. subst.
        intros [-> | Hin1] Hin2.
        -- apply Hnotin. apply in_or_app. right. exact Hin2.
        -- exact (IH Hnd' Hin1 Hin2).
Qed.

Section Asked.

Variable server : nat -> request -> reply * nat.
Variable utc_today : nat -> date.

Lemma checks_ask_step url w : checks_ask 1 w (snd (url_exists server url w)).
Proof.
  unfold url_exists.
  destruct (cache_lookup (exists_cache w) url (now w)) as [b|] eqn:Hlook.
  - exists [(url, b)], []. cbn [snd log_probe probed sent exists_cache map fst].
    rewrite app_nil_r. repeat split; auto.
    intros _ Hnew u [<- | []]. exfalso.
    unfold cache_lookup in Hlook. rewrite (Hnew url (or_introl eq_refl)) in Hlook.
    discriminate Hlook.
  - pose proof (url_exists_body_sent server url w) as (Hsent & Hp & _).
    pose proof (url_exists_body_true server url w) as (Hstore & _).
    cbv zeta in *.
    destruct (url_exists_body server url w) as [b w1]. cbn [fst snd] in *.
    assert (Hreqs : exists reqs, sent w1 = sent w ++ reqs /\ In (head_request url) reqs).
    { destruct Hsent as [Hsent | Hsent]; eexists; (split; [exact Hsent|]);
        left; reflexivity. }
    destruct Hreqs as (reqs & Hreqs & Hhead).
    exists [(url, b)], reqs.
    cbn [log_probe set_exists_cache probed sent exists_cache map fst].
    split; [rewrite Hp; reflexivity|]. split; [exact Hreqs|]. split.
    + intros u. destruct (decide (url = u)) as [<-|Hne].
      * intros _. right. left. reflexivity.
      * rewrite lookup_insert_ne by exact Hne. rewrite Hstore. intros Hin.
        left. exact Hin.
    + intros _ _ u [<- | []]. exact Hhead.
Qed.

(** X10: when a search finds nothing in a process whose existence store
    was empty, the server was sent the [HEAD] of the URL of every one of
    the 216 keys of the space during that search. *)
Theorem not_found_after_asking_every_url station w days :
  valid_date (utc_today (now w)) ->
  search_dates (utc_today (now w)) = Some days ->
  (forall u, exists_cache w !! u = None) ->
  let run := find_latest_csv_body server utc_today station w in
  fst run = Ok None ->
  exists reqs,
    sent (snd run) = sent w ++ reqs /\
    forall k, In k (search_space days) ->
      In (head_request (key_url station k)) reqs.
Proof.
  intros Hv Hdays Hempty run Hnone.
  destruct (find_latest_csv_body_probes server utc_today station w days Hdays)
    as (m & trace & r & Hm & Hr & Hp & Hurls & Hcases). fold run in Hr, Hp.
  rewrite Hr in Hnone. injection Hnone as ->.
  destruct Hcases as [(_ & -> & _) | (i & _ & Habs & _)]; [|discriminate].
  pose proof (scan_days_closed server checks_ask checks_ask_refl checks_ask_step
                checks_ask_trans checks_ask_weaken (utc_today (now w)) station
                day_offsets w) as (trace' & reqs & Hp' & Hs & _ & Hask).
  fold (find_latest_csv_body server utc_today station w) in Hp', Hs. fold run in Hp', Hs.
  rewrite Hp in Hp'. apply app_inv_head in Hp'. subst trace'.
  exists reqs. split; [exact Hs|].
  intros k Hk. apply Hask.
  - rewrite Hurls. exact (ranked_urls_nodup station _ days 216 Hv Hdays (le_n _)).
  - intros u _. apply Hempty.
  - rewrite Hurls.
    rewrite (search_space_ranks days (search_dates_length _ _ Hdays)) in Hk.
    apply in_map_iff in Hk as (i & <- & Hi).
    apply (in_map (fun i => key_url station (key_at days i))). exact Hi.
Qed.

End Asked.

(* ===================================================================== *)
(** * After the time-to-live                                              *)
(* ===================================================================== *)

Lemma checks_past_refl w : checks_past 0 w w.
Proof. intros H. split; [exact H | lia]. Qed.

Lemma checks_past_trans a b w1 w2 w3 :
  checks_past a w1 w2 -> checks_past b w2 w3 -> checks_past (a + b) w1 w3.
Proof.
  intros H12 H23 H1. destruct (H12 H1) as [H2 C1]. destruct (H23 H2) as [H3 C2].
  split; [exact H3 | lia].
Qed.

Lemma checks_past_weaken a b w w' :
  (a <= b)%nat -> checks_past a w w' -> checks_past b w w'.
Proof. intros _ H. exact H. Qed.

Section Expiry.

Variable server : nat -> request -> reply * nat.
Variable utc_today : nat -> date.

Lemma checks_past_step url w : checks_past 1 w (snd (url_exists server url w)).
Proof.
  intros Hpast. unfold url_exists.
  destruct (cache_lookup (exists_cache w) url (now w)) as [b|];
    [split; [exact Hpast | cbn; lia]|].
  pose proof (url_exists_body_true server url w) as (Hstore & Hclock & _).
  cbv zeta in *.
  destruct (url_exists_body server url w) as [b w1]. cbn [fst snd] in *.
  split; [|cbn; exact Hclock].
  intros u v stored. cbn [log_probe set_exists_cache exists_cache now].
  destruct (decide (url = u)) as [<-|Hne].
  - rewrite lookup_insert_eq. intros Heq. injection Heq as _ <-. lia.
  - rewrite lookup_insert_ne by exact Hne. rewrite Hstore. intros Hentry.
    pose proof (Hpast u v stored Hentry). lia.
Qed.

Lemma scan_versions_cons y m d hh station ver rest w :
  scan_versions server y m d hh station (ver :: rest) w =
  let '(b, w1) := url_exists server (build_url y m d hh ver station) w in
  if b then (Some (mkresult (build_url y m d hh ver station) y m d hh ver), w1)
  else scan_versions server y m d hh station rest w1.
Proof. reflexivity. Qed.

Lemma scan_hours_cons y m d station hh rest w :
  scan_hours server y m d station (hh :: rest) w =
  match scan_versions server y m d hh station NBM_VERSIONS_TO_TRY w with
  | (Some found, w1) => (Some found, w1)
  | (None, w1) => scan_hours server y m d station rest w1
  end.
Proof. reflexivity. Qed.

Lemma scan_days_first today station rest w :
  scan_days server today station (0%nat :: rest) w =
  match scan_hours server (year today) (month today) (day today) station HOURS_DESC w with
  | (Some found, w1) => (Ok (Some found), w1)
  | (None, w1) => scan_days server today station rest w1
  end.
Proof. reflexivity. Qed.

(** A search begins with the existence check of its first URL. *)
Lemma find_latest_csv_body_begins station w :
  let first := url_exists server (first_url (utc_today (now w)) station) w in
  exists rest,
    sent (snd (find_latest_csv_body server utc_today station w))
    = sent (snd first) ++ rest.
Proof.
  cbv zeta. unfold find_latest_csv_body, first_url.
  set (today := utc_today (now w)).
  change day_offsets with [0%nat; 1%nat; 2%nat]. rewrite scan_days_first.
  change HOURS_DESC with (23 :: range_down 22 23). rewrite scan_hours_cons.
  change NBM_VERSIONS_TO_TRY with ["NBM4.2"; "NBM4.1"; "NBM4.0"] at 1.
  rewrite scan_versions_cons.
  destruct (url_exists server (build_url (year today) (month today) (day today) 23
                                 "NBM4.2" station) w) as [b w1].
  cbn [snd]. destruct b; [exists []; rewrite app_nil_r; reflexivity|].
  pose proof (scan_versions_closed server checks_cost checks_cost_refl
                (checks_cost_step server) checks_cost_trans checks_cost_weaken
                (year today) (month today) (day today) 23 station
                ["NBM4.1"; "NBM4.0"] w1) as (_ & r1 & _ & Hs1 & _).
  destruct (scan_versions server _ _ _ 23 station ["NBM4.1"; "NBM4.0"] w1)
    as [[found|] w2]; cbn [snd] in *; [exists r1; exact Hs1|].
  pose proof (scan_hours_closed server checks_cost checks_cost_refl
                (checks_cost_step server) checks_cost_trans checks_cost_weaken
                (year today) (month today) (day today) station
                (range_down 22 23) w2) as (_ & r2 & _ & Hs2 & _).
  destruct (scan_hours server _ _ _ station (range_down 22 23) w2)
    as [[found|] w3]; cbn [snd] in *;
    [exists (r1 ++ r2); rewrite Hs2, Hs1, app_assoc; reflexivity|].
  pose proof (scan_days_closed server checks_cost checks_cost_refl
                (checks_cost_step server) checks_cost_trans checks_cost_weaken
                today station [1%nat; 2%nat] w3) as (_ & r3 & _ & Hs3 & _).
  exists (r1 ++ r2 ++ r3). rewrite Hs3, Hs2, Hs1, !app_assoc. reflexivity.
Qed.

(** X11: 300 seconds after a search returned, its result and every
    answer of the existence store have expired: the next search for the
    station is run again and starts by sending the [HEAD] of the URL of
    that day's 23Z run of the first listed version. *)
Theorem expired_result_is_searched_again station w r w1 dt :
  store_in_past w ->
  cache_lookup (find_cache w) station (now w) = None ->
  find_latest_csv server utc_today station w = (Ok r, w1) ->
  (CACHE_TTL <= dt)%nat ->
  exists rest,
    sent (snd (find_latest_csv server utc_today station (elapse dt w1)))
    = sent w1
        ++ head_request (first_url (utc_today (now w1 + dt)) station) :: rest.
Proof.
  intros Hpast Hmiss Hrun Hdt.
  unfold find_latest_csv in Hrun. rewrite Hmiss in Hrun.
  pose proof (scan_days_closed server checks_past checks_past_refl checks_past_step
                checks_past_trans checks_past_weaken (utc_today (now w)) station
                day_offsets w Hpast) as [Hpast' _].
  unfold find_latest_csv_body in Hrun.
  destruct (scan_days server (utc_today (now w)) station day_offsets w)
    as [[r'|e] w']; [|discriminate].
  injection Hrun as <- <-. cbn [snd] in Hpast'.
  set (w1 := set_find_cache (<[station := (r', now w')]> (find_cache w')) w').
  unfold find_latest_csv.
  assert (Hexpired : cache_lookup (find_cache (elapse dt w1)) station
                                  (now (elapse dt w1)) = None).
  { subst w1. cbn [elapse set_find_cache find_cache now].
    apply cache_lookup_expired. exact Hdt. }
  rewrite Hexpired.
  destruct (find_latest_csv_body_begins station (elapse dt w1)) as (rest & Hbegin).
  cbv zeta in Hbegin.
  assert (Hfirst : exists more,
             sent (snd (url_exists server
                          (first_url (utc_today (now (elapse dt w1))) station)
                          (elapse dt w1)))
             = sent w1 ++ head_request
                            (first_url (utc_today (now (elapse dt w1))) station)
                          :: more).
  { set (u := first_url (utc_today (now (elapse dt w1))) station).
    unfold url_exists.
    assert (Hold : cache_lookup (exists_cache (elapse dt w1)) u (now (elapse dt w1))
                   = None).
    { subst w1. cbn [elapse set_find_cache exists_cache now]. unfold cache_lookup.
      destruct (exists_cache w' !! u) as [[v stored]|] eqn:Hentry; [|reflexivity].
      pose proof (Hpast' u v stored Hentry).
      destruct (Nat.ltb_spec (now w' + dt) (stored + CACHE_TTL)); [lia | reflexivity]. }
    rewrite Hold.
    pose proof (url_exists_body_sent server u (elapse dt w1)) as (Hsent & _).
    cbv zeta in Hsent.
    destruct (url_exists_body server u (elapse dt w1)) as [b w2].
    cbn [snd log_probe set_exists_cache sent] in *.
    destruct Hsent as [-> | ->]; eexists; reflexivity. }
  destruct Hfirst as (more & Hfirst).
  exists (more ++ rest).
  replace (now w1 + dt)%nat with (now (elapse dt w1)) by reflexivity.
  destruct (find_latest_csv_body server utc_today station (elapse dt w1))
    as [[found|e] w2]; cbn [snd set_find_cache sent] in *;
    rewrite Hbegin, Hfirst, <- app_assoc; reflexivity.
Qed.

End Expiry.

(* ===================================================================== *)
(** * More concrete runs                                                  *)
(* ===================================================================== *)

Lemma cold_justified server t : store_justified server (cold t).
Proof.
  intros u stored Hentry. cbn [cold exists_cache] in Hentry.
  rewrite lookup_empty in Hentry. discriminate Hentry.
Qed.

Lemma search_time_is_bounded_witness :
  (now (snd (find_latest_csv_body Scenario.down Scenario.clock "KXMR" (cold 0)))
   <= 432 * 20)%nat.
Proof.
  destruct (search_time_is_bounded Scenario.down Scenario.clock 20
              ltac:(intros t r; cbn; lia) "KXMR" Scenario.target (cold 0))
    as (_ & _ & H).
  cbn [cold now] in H. lia.
Defined.

Lemma returned_url_was_answered_200_witness :
  exists t,
    (t <= now (snd (find_latest_csv_body Scenario.only_target Scenario.clock
                      "KXMR" (cold 0))))%nat /\
    answered_200 Scenario.only_target Scenario.target t.
Proof.
  destruct (returned_url_was_answered_200 Scenario.only_target Scenario.clock "KXMR"
              (cold 0) (key_result "KXMR" (mkkey (mkdate 2024 2 29) 12 "NBM4.1"))
              (cold_justified _ 0) ltac:(vm_compute; reflexivity))
    as (_ & H).
  exact H.
Defined.

Lemma failed_download_is_asked_again_witness :
  sent (snd (download_csv_bytes (Scenario.always 404) Scenario.target
               (elapse 10 (snd (download_csv_bytes (Scenario.always 404)
                                  Scenario.target (cold 0))))))
  = sent (snd (download_csv_bytes (Scenario.always 404) Scenario.target (cold 0)))
      ++ [get_request Scenario.target].
Proof.
  pose proof (surjective_pairing
                (download_csv_bytes (Scenario.always 404) Scenario.target (cold 0)))
    as Hrun.
  assert (Hfst : fst (download_csv_bytes (Scenario.always 404) Scenario.target (cold 0))
                 = Raise (HTTPError 404)) by (vm_compute; reflexivity).
  rewrite Hfst in Hrun.
  destruct (failed_download_is_asked_again (Scenario.always 404) Scenario.target
              (cold 0) _ _ Hrun) as (_ & _ & _ & H).
  exact (H 10%nat).
Defined.

Lemma second_press_shows_the_same_page_witness :
  on_button Scenario.only_target Scenario.clock Scenario.parse "KXMR"
    (elapse 10 (snd (on_button Scenario.only_target Scenario.clock Scenario.parse
                       "KXMR" (cold 0))))
  = (fst (on_button Scenario.only_target Scenario.clock Scenario.parse "KXMR" (cold 0)),
     elapse 10 (snd (on_button Scenario.only_target Scenario.clock Scenario.parse
                       "KXMR" (cold 0)))).
Proof.
  apply (second_press_shows_the_same_page Scenario.only_target Scenario.clock
           Scenario.parse "KXMR" (cold 0) 10).
  - reflexivity.
  - intros u. apply lookup_empty.
  - intros e. vm_compute. discriminate.
  - vm_compute. lia.
Defined.

Lemma page_fails_only_after_the_search_witness :
  exists r, fst (find_latest_csv Scenario.only_target Scenario.clock "KXMR" (cold 0)) = Ok r.
Proof.
  destruct (page_fails_only_after_the_search Scenario.only_target Scenario.clock
              Scenario.parse "KXMR" (cold 0) scenario_today_valid
              ltac:(cbn; lia)) as (H & _).
  exact H.
Defined.

Lemma found_metadata_is_a_run_witness :
  success_message (key_result "KXMR" (mkkey (mkdate 2024 2 29) 12 "NBM4.1"))
  = "Found latest: 2024-02-29 12Z (NBM4.1)".
Proof.
  destruct (found_metadata_is_a_run Scenario.only_target Scenario.clock "KXMR" (cold 0)
              (key_result "KXMR" (mkkey (mkdate 2024 2 29) 12 "NBM4.1"))
              scenario_today_valid ltac:(cbn; lia) ltac:(vm_compute; reflexivity))
    as (_ & _ & _ & _ & _ & H).
  rewrite H. reflexivity.
Defined.

Lemma not_found_after_asking_every_url_witness :
  exists reqs,
    sent (snd (find_latest_csv_body Scenario.nothing Scenario.clock "KXMR" (cold 0)))
    = reqs /\
    In (head_request Scenario.target) reqs.
Proof.
  destruct (not_found_after_asking_every_url Scenario.nothing Scenario.clock "KXMR"
              (cold 0) [mkdate 2024 3 1; mkdate 2024 2 29; mkdate 2024 2 28]
              scenario_today_valid eq_refl (fun u => lookup_empty u)
              ltac:(vm_compute; reflexivity))
    as (reqs & Hs & Hall).
  exists reqs. split; [exact Hs|].
  apply (Hall (mkkey (mkdate 2024 2 29) 12 "NBM4.1")).
  unfold search_space, keys_of_day. apply in_flat_map.
  exists (mkdate 2024 2 29). split; [cbn; tauto|].
  apply in_flat_map. exists 12. split; [cbn; tauto|]. cbn. tauto.
Defined.

Lemma cold_in_past t : store_in_past (cold t).
Proof.
  intros u b stored Hentry. cbn [cold exists_cache] in Hentry.
  rewrite lookup_empty in Hentry. discriminate Hentry.
Qed.

Lemma expired_result_is_searched_again_witness :
  exists rest,
    sent (snd (find_latest_csv Scenario.nothing Scenario.clock "KXMR"
                 (elapse 300 (snd (find_latest_csv Scenario.nothing Scenario.clock
                                     "KXMR" (cold 0))))))
    = sent (snd (find_latest_csv Scenario.nothing Scenario.clock "KXMR" (cold 0)))
        ++ head_request (first_url Scenario.today "KXMR") :: rest.
Proof.
  pose proof (surjective_pairing
                (find_latest_csv Scenario.nothing Scenario.clock "KXMR" (cold 0)))
    as Hrun.
  assert (Hfst : fst (find_latest_csv Scenario.nothing Scenario.clock "KXMR" (cold 0))
                 = Ok None) by (vm_compute; reflexivity).
  rewrite Hfst in Hrun.
  exact (expired_result_is_searched_again Scenario.nothing Scenario.clock "KXMR"
           (cold 0) _ _ 300 (cold_in_past 0) eq_refl Hrun
           ltac:(unfold CACHE_TTL; lia)).
Defined.
